(** * smcroute: the kernel multicast control plane ([src/kern.c])

    A shallow embedding of [group_req] (both build variants),
    [kern_join_leave], [kern_mroute4] and [kern_mroute6], followed by the
    properties of the specification that concern them.

    The C functions talk to three collaborators: the kernel (through
    [setsockopt] and [errno]), the logger ([smclog]) and the router
    discovery component ([mrdisc_enable], [mrdisc_disable]).  They are
    modelled by a state monad over a [world] that carries [errno] and the
    chronological list of calls made to the collaborators.  What the
    logger and the discovery component do to [errno] is a parameter.  A
    read or a write outside an array has no defined behaviour in C; the
    monad has a failure outcome for it. *)

From Stdlib Require Import ZArith String Ascii List Bool Lia DecimalString.
From stdpp Require Import base list.
Import ListNotations.

Local Open Scope Z_scope.

(** ** Data model *)

(** [sa_family_t], as far as [kern.c] looks at it. *)
Inductive sa_family := AF_UNSPEC | AF_INET | AF_INET6.

Definition sa_family_eqb (a b : sa_family) : bool :=
  match a, b with
  | AF_UNSPEC, AF_UNSPEC | AF_INET, AF_INET | AF_INET6, AF_INET6 => true
  | _, _ => false
  end.

(** [struct sockaddr_storage] / [inet_addr_t]: the family tag and the
    address bytes in network order (4 for IPv4, 16 for IPv6). *)
Record inet_addr := mk_inet_addr {
  ss_family : sa_family;
  ss_addr : list Z
}.

(** [struct sockaddr_in6], which [inet_addr6_get] points to. *)
Record sockaddr_in6 := mk_sockaddr_in6 {
  sin6_family : sa_family;
  sin6_port : Z;
  sin6_flowinfo : Z;
  sin6_addr : list Z;
  sin6_scope_id : Z
}.

(** The value of an [int] once stored in a field of type [uint32_t] or
    [unsigned int]. *)
Definition uint32 (z : Z) : Z := z mod 2 ^ 32.

(** [struct iface], the two fields read here; [ifindex] is an [int]. *)
Record iface := mk_iface {
  ifindex : Z;
  inaddr : Z
}.

(** [struct mcgroup]. *)
Record mcgroup := mk_mcgroup {
  mcg_iface : iface;
  mcg_source : inet_addr;
  mcg_group : inet_addr;
  mcg_len : Z
}.

(** [struct mroute]: [ttl] is the array [route->ttl]; [NELEMS(route->ttl)]
    is its length. Its elements are [uint8_t]. *)
Record mroute := mk_mroute {
  source : inet_addr;
  group : inet_addr;
  inbound : Z;
  ttl : list Z
}.

(** The socket level and the option name given to [setsockopt]. *)
Inductive ipproto := IPPROTO_IP | IPPROTO_IPV6.

Inductive sockopt :=
| MCAST_JOIN_GROUP | MCAST_LEAVE_GROUP
| MCAST_JOIN_SOURCE_GROUP | MCAST_LEAVE_SOURCE_GROUP
| IP_ADD_MEMBERSHIP | IP_DROP_MEMBERSHIP
| IPV6_JOIN_GROUP | IPV6_LEAVE_GROUP
| MRT_ADD_MFC | MRT_DEL_MFC
| MRT6_ADD_MFC | MRT6_DEL_MFC.

(** The structures handed to the kernel. The interface fields of
    [struct group_req], [struct group_source_req] and [struct ipv6_mreq]
    are unsigned, the one of [struct ip_mreqn] is an [int]. *)
Record group_req_t := mk_group_req {
  gr_interface : Z;
  gr_group : inet_addr
}.

Record group_source_req_t := mk_group_source_req {
  gsr_interface : Z;
  gsr_source : inet_addr;
  gsr_group : inet_addr
}.

Record ipv6_mreq_t := mk_ipv6_mreq {
  ipv6mr_multiaddr : list Z;
  ipv6mr_interface : Z
}.

(** [struct ip_mreqn] where the platform has it. [group_req] declares the
    structure without an initialiser and never writes [imr_address]:
    [None] stands for bytes that no statement has written. *)
Record ip_mreqn_t := mk_ip_mreqn {
  imrn_multiaddr : Z;
  imr_address : option Z;
  imr_ifindex : Z
}.

(** [struct ip_mreq] elsewhere. *)
Record ip_mreq_t := mk_ip_mreq {
  imr_multiaddr : Z;
  imr_interface : Z
}.

(** [struct mfcctl]; [mfcc_ttls] is an array of [MAXVIFS] bytes. *)
Record mfcctl := mk_mfcctl {
  mfcc_origin : Z;
  mfcc_mcastgrp : Z;
  mfcc_parent : Z;
  mfcc_ttls : list Z
}.

(** [struct if_set]: an array of words of [NIFBITS] bits each. *)
Definition if_set := list Z.

(** [struct mf6cctl]. *)
Record mf6cctl := mk_mf6cctl {
  mf6cc_origin : sockaddr_in6;
  mf6cc_mcastgrp : sockaddr_in6;
  mf6cc_parent : Z;
  mf6cc_ifset : if_set
}.

(** The [optval] argument; [optlen] is the [sizeof] of the structure and
    is determined by the constructor. *)
Inductive sockopt_arg :=
| ArgGroupReq (gr : group_req_t)
| ArgGroupSourceReq (gsr : group_source_req_t)
| ArgIpv6Mreq (m : ipv6_mreq_t)
| ArgIpMreqn (m : ip_mreqn_t)
| ArgIpMreq (m : ip_mreq_t)
| ArgMfcctl (mc : mfcctl)
| ArgMf6cctl (mc : mf6cctl).

Definition set_mfcc_ttls (mc : mfcctl) (ttls : list Z) : mfcctl :=
  {| mfcc_origin := mfcc_origin mc;
     mfcc_mcastgrp := mfcc_mcastgrp mc;
     mfcc_parent := mfcc_parent mc;
     mfcc_ttls := ttls |}.

Definition set_mf6cc_ifset (mc : mf6cctl) (ifset : if_set) : mf6cctl :=
  {| mf6cc_origin := mf6cc_origin mc;
     mf6cc_mcastgrp := mf6cc_mcastgrp mc;
     mf6cc_parent := mf6cc_parent mc;
     mf6cc_ifset := ifset |}.

(** ** Collaborators *)

(** The [syslog] levels used by [kern.c]. *)
Inductive severity := LOG_ERR | LOG_WARNING | LOG_DEBUG.

(** One variadic argument of [smclog]. *)
Inductive fmt_arg :=
| AStr (s : string)
| AInt (z : Z).

(** A call to a collaborator. *)
Inductive event :=
| Smclog (sev : severity) (fmt : string) (args : list fmt_arg)
| Setsockopt (sd : Z) (level : ipproto) (op : sockopt) (arg : sockopt_arg)
| Mrdisc_enable (vif : Z)
| Mrdisc_disable (vif : Z).

(** What the kernel answers to a [setsockopt]: success, or failure with
    the [errno] it sets. *)
Inductive kres :=
| KOk
| KErr (e : Z).

Definition kernel_t : Type := Z -> ipproto -> sockopt -> sockopt_arg -> kres.

Definition ENOENT : Z := 2.

(** A character constant, as the [int] that C makes of it. *)
Definition chr (c : ascii) : Z := Z.of_nat (nat_of_ascii c).

(** The switches of [config.h]. *)
Record build_config := mk_build_config {
  HAVE_STRUCT_GROUP_REQ : bool;
  HAVE_IPV6_MULTICAST_HOST : bool;
  HAVE_STRUCT_IP_MREQN : bool
}.

(** What [kern.c] takes from headers and helper files that are not part of
    it: array sizes of the kernel structures, buffer sizes, the address
    helpers of the repository and [strerror]. *)
Class Platform := {
  config : build_config;
  (** [NELEMS(mc.mfcc_ttls)] *)
  MAXVIFS : nat;
  INET_ADDRSTR_LEN : nat;
  INET_ADDRSTRLEN : nat;
  is_anyaddr : inet_addr -> bool;
  inet_addr2str : inet_addr -> nat -> string;
  inet_addr_get : inet_addr -> Z;
  inet_addr6_get : inet_addr -> sockaddr_in6;
  strerror : Z -> string;
  (** [errno] after a call to [smclog], [mrdisc_enable] or
      [mrdisc_disable], given the call and [errno] before it: they are
      defined outside [kern.c], which does not save [errno] across them *)
  errno_after : event -> Z -> Z
}.

(** ** The monad *)

Record world := mk_world {
  errno : Z;
  trace : list event
}.

Definition M (A : Type) : Type := world -> option (A * world).

Definition ret {A} (a : A) : M A := fun w => Some (a, w).

Definition bind {A B} (m : M A) (k : A -> M B) : M B :=
  fun w => match m w with
           | Some (a, w') => k a w'
           | None => None
           end.

(** Undefined behaviour of the C program. *)
Definition undefined {A} : M A := fun _ => None.

Definition lift {A} (o : option A) : M A :=
  match o with
  | Some a => ret a
  | None => undefined
  end.

Declare Scope kern_scope.
Delimit Scope kern_scope with kern.
Notation "x <- m ;; k" := (bind m (fun x => k))
  (at level 100, m at next level, right associativity) : kern_scope.
Notation "m ;; k" := (bind m (fun _ => k))
  (at level 100, right associativity) : kern_scope.
Local Open Scope kern_scope.

(** A call to a collaborator other than the kernel. *)
Definition emit {P : Platform} (e : event) : M unit :=
  fun w => Some (tt, {| errno := errno_after e (errno w);
                        trace := trace w ++ [e] |}).

Definition smclog {P : Platform}
    (sev : severity) (fmt : string) (args : list fmt_arg) : M unit :=
  emit (Smclog sev fmt args).

Definition get_errno : M Z := fun w => Some (errno w, w).

Definition mrdisc_enable {P : Platform} (vif : Z) : M unit :=
  emit (Mrdisc_enable vif).

Definition mrdisc_disable {P : Platform} (vif : Z) : M unit :=
  emit (Mrdisc_disable vif).

(** The result of a computation started with [errno = e0] and no call made
    yet: return value, final [errno], calls in order. *)
Definition run {A} (m : M A) (e0 : Z) : option (A * world) :=
  m {| errno := e0; trace := [] |}.

(** ** Arrays and loops *)

(** [a[i]] as an rvalue. *)
Definition array_get {A} (a : list A) (i : nat) : option A := a !! i.

(** [a[i] = v]. *)
Definition array_set {A} (a : list A) (i : nat) (v : A) : option (list A) :=
  if decide (i < length a)%nat then Some (<[i:=v]> a) else None.

(** [for (i = i0; i < i0 + n; i++) body], on the state [s] of the loop. *)
Fixpoint for_loop {S} (n i : nat) (body : nat -> S -> option S) (s : S) : option S :=
  match n with
  | O => Some s
  | Datatypes.S n' =>
      match body i s with
      | Some s' => for_loop n' (Datatypes.S i) body s'
      | None => None
      end
  end.

(** ** The interface bitset of the IPv6 multicast routing API

    [struct if_set] and its macros come from the system header
    ([linux/mroute6.h], [netinet6/ip6_mroute.h]): [IF_SETSIZE] is 256 and
    a word has 32 bits. *)

Definition NIFBITS : nat := 32.
Definition IF_SETSIZE : nat := 256.

(** [IF_ZERO(p)]: a [memset] of the whole structure to 0. *)
Definition IF_ZERO : if_set := replicate (IF_SETSIZE / NIFBITS) 0.

(** [IF_SET(n, p)]: [p->ifs_bits[n / NIFBITS] |= 1 << (n % NIFBITS)]. *)
Definition IF_SET (n : nat) (p : if_set) : option if_set :=
  match array_get p (n / NIFBITS) with
  | Some w =>
      array_set p (n / NIFBITS) (Z.lor w (Z.shiftl 1 (Z.of_nat (n mod NIFBITS))))
  | None => None
  end.

(** [IF_ISSET(n, p)]: [p->ifs_bits[n / NIFBITS] & (1 << (n % NIFBITS))]. *)
Definition IF_ISSET (n : nat) (p : if_set) : bool :=
  match array_get p (n / NIFBITS) with
  | Some w => negb (Z.land w (Z.shiftl 1 (Z.of_nat (n mod NIFBITS))) =? 0)
  | None => false
  end.

(** ** The functions of [kern.c] *)

Section Kern.

Context {P : Platform} (kernel : kernel_t).

(** [setsockopt(2)]: 0 on success; -1 and [errno] set on failure. *)
Definition setsockopt (sd : Z) (level : ipproto) (op : sockopt) (arg : sockopt_arg) : M Z :=
  fun w =>
    let t := trace w ++ [Setsockopt sd level op arg] in
    match kernel sd level op arg with
    | KOk => Some (0, {| errno := errno w; trace := t |})
    | KErr e => Some (-1, {| errno := e; trace := t |})
    end.

(** [group_req], the RFC 3678 variant ([HAVE_STRUCT_GROUP_REQ]). *)
Definition group_req_rfc3678 (sd cmd : Z) (mcg : mcgroup) : M Z :=
  let proto :=
    if HAVE_IPV6_MULTICAST_HOST config
       && sa_family_eqb (ss_family (mcg_group mcg)) AF_INET6
    then IPPROTO_IPV6 else IPPROTO_IP in
  let '(op, source, group, arg) :=
    if is_anyaddr (mcg_source mcg) then
      let op := if cmd =? chr "j" then MCAST_JOIN_GROUP else MCAST_LEAVE_GROUP in
      let gr := {| gr_interface := uint32 (ifindex (mcg_iface mcg));
                   gr_group := mcg_group mcg |} in
      let source := "*"%string in
      let group := inet_addr2str (gr_group gr) INET_ADDRSTR_LEN in
      (op, source, group, ArgGroupReq gr)
    else
      let op := if cmd =? chr "j" then MCAST_JOIN_SOURCE_GROUP
                else MCAST_LEAVE_SOURCE_GROUP in
      let gsr := {| gsr_interface := uint32 (ifindex (mcg_iface mcg));
                    gsr_source := mcg_source mcg;
                    gsr_group := mcg_group mcg |} in
      let source := inet_addr2str (gsr_source gsr) INET_ADDRSTR_LEN in
      let group := inet_addr2str (gsr_group gsr) INET_ADDRSTR_LEN in
      (op, source, group, ArgGroupSourceReq gsr) in
  smclog LOG_DEBUG "%s group (%s,%s) on ifindex %d and socket %d ..."
    [AStr (if cmd =? chr "j" then "Join" else "Leave"); AStr source; AStr group;
     AInt (ifindex (mcg_iface mcg)); AInt sd];;
  setsockopt sd proto op arg.

(** The format string of the legacy variant's log line. *)
Definition legacy_fmt : string :=
  String.append "%s group (" "*,%s) on ifindex %d ...".

(** [group_req], the variant for the old [struct ip_mreq] API. *)
Definition group_req_legacy (sd cmd : Z) (mcg : mcgroup) : M Z :=
  let '(proto, op, arg) :=
    if HAVE_IPV6_MULTICAST_HOST config
       && sa_family_eqb (ss_family (mcg_group mcg)) AF_INET6
    then
      let sin6 := inet_addr6_get (mcg_group mcg) in
      let ipv6mr := {| ipv6mr_multiaddr := sin6_addr sin6;
                       ipv6mr_interface := uint32 (ifindex (mcg_iface mcg)) |} in
      (IPPROTO_IPV6,
       if cmd =? chr "j" then IPV6_JOIN_GROUP else IPV6_LEAVE_GROUP,
       ArgIpv6Mreq ipv6mr)
    else
      let arg :=
        if HAVE_STRUCT_IP_MREQN config then
          ArgIpMreqn {| imrn_multiaddr := inet_addr_get (mcg_group mcg);
                        imr_address := None;
                        imr_ifindex := ifindex (mcg_iface mcg) |}
        else
          ArgIpMreq {| imr_multiaddr := inet_addr_get (mcg_group mcg);
                       imr_interface := inaddr (mcg_iface mcg) |} in
      (IPPROTO_IP,
       if cmd =? chr "j" then IP_ADD_MEMBERSHIP else IP_DROP_MEMBERSHIP,
       arg) in
  smclog LOG_DEBUG legacy_fmt
    [AStr (if cmd =? chr "j" then "Join" else "Leave");
     AStr (inet_addr2str (mcg_group mcg) INET_ADDRSTR_LEN);
     AInt (ifindex (mcg_iface mcg))];;
  setsockopt sd proto op arg.

(** The variant the build selects. *)
Definition group_req (sd cmd : Z) (mcg : mcgroup) : M Z :=
  if HAVE_STRUCT_GROUP_REQ config then group_req_rfc3678 sd cmd mcg
  else group_req_legacy sd cmd mcg.

Definition kern_join_leave (sd cmd : Z) (mcg : mcgroup) : M Z :=
  let cmd := if cmd =? 0 then chr "j" else cmd in
  err <- group_req sd cmd mcg;;
  if negb (err =? 0) then
    let source :=
      if negb (is_anyaddr (mcg_source mcg))
      then inet_addr2str (mcg_source mcg) INET_ADDRSTR_LEN
      else "*"%string in
    let group := inet_addr2str (mcg_group mcg) INET_ADDRSTR_LEN in
    let len := if mcg_len mcg =? 0 then 32 else mcg_len mcg in
    e <- get_errno;;
    smclog LOG_ERR "Failed %s group (%s,%s/%d) on sd %d ... %d: %s"
      [AStr (if cmd =? chr "j" then "joining" else "leaving");
       AStr source; AStr group; AInt len; AInt sd;
       AInt e; AStr (strerror e)];;
    ret 1
  else
    ret 0.

(** The loop of [kern_mroute4]:
    [for (i = 0; i < NELEMS(mc.mfcc_ttls); i++) mc.mfcc_ttls[i] = route->ttl[i];] *)
Definition copy_ttls (route : mroute) (mfcc_ttls : list Z) : option (list Z) :=
  for_loop (length mfcc_ttls) 0
    (fun i ttls =>
       match array_get (ttl route) i with
       | Some v => array_set ttls i v
       | None => None
       end)
    mfcc_ttls.

Definition kern_mroute4 (sd cmd : Z) (route : mroute) (active : Z) : M Z :=
  let op := if cmd =? chr "a" then MRT_ADD_MFC else MRT_DEL_MFC in
  if sd =? -1 then
    smclog LOG_DEBUG "No IPv4 multicast socket" [];;
    ret (-1)
  else
    let mc := {| mfcc_origin := inet_addr_get (source route);
                 mfcc_mcastgrp := inet_addr_get (group route);
                 mfcc_parent := inbound route;
                 mfcc_ttls := replicate MAXVIFS 0 |} in
    let origin := inet_addr2str (source route) INET_ADDRSTRLEN in
    let group := inet_addr2str (group route) INET_ADDRSTRLEN in
    ttls <- lift (copy_ttls route (mfcc_ttls mc));;
    let mc := set_mfcc_ttls mc ttls in
    r <- setsockopt sd IPPROTO_IP op (ArgMfcctl mc);;
    if negb (r =? 0) then
      e <- get_errno;;
      (if ENOENT =? e then
         smclog LOG_DEBUG "failed removing multicast route (%s,%s), does not exist."
           [AStr origin; AStr group]
       else
         e' <- get_errno;;
         smclog LOG_DEBUG "failed %s IPv4 multicast route (%s,%s): %s"
           [AStr (if cmd =? chr "a" then "adding" else "removing");
            AStr origin; AStr group; AStr (strerror e')]);;
      ret 1
    else
      (if negb (active =? 0) then
         smclog LOG_DEBUG "%s %s -> %s from VIF %d"
           [AStr (if cmd =? chr "a" then "Add" else "Del");
            AStr origin; AStr group; AInt (inbound route)];;
         if cmd =? chr "a" then mrdisc_enable (inbound route)
         else mrdisc_disable (inbound route)
       else ret tt);;
      ret 0.

(** The loop of [kern_mroute6]:
    [for (i = 0; i < NELEMS(route->ttl); i++) if (route->ttl[i]) IF_SET(i, &mc.mf6cc_ifset);] *)
Definition fill_ifset (route : mroute) (ifset : if_set) : option if_set :=
  for_loop (length (ttl route)) 0
    (fun i ifset =>
       match array_get (ttl route) i with
       | Some v => if negb (v =? 0) then IF_SET i ifset else Some ifset
       | None => None
       end)
    ifset.

Definition kern_mroute6 (sd cmd : Z) (route : mroute) : M Z :=
  let op := if cmd =? chr "a" then MRT6_ADD_MFC else MRT6_DEL_MFC in
  if sd <? 0 then
    smclog LOG_DEBUG "No IPv6 multicast socket" [];;
    ret (-1)
  else
    let mc := {| mf6cc_origin := inet_addr6_get (source route);
                 mf6cc_mcastgrp := inet_addr6_get (group route);
                 mf6cc_parent := inbound route;
                 mf6cc_ifset := replicate (IF_SETSIZE / NIFBITS) 0 |} in
    let origin := inet_addr2str (source route) INET_ADDRSTR_LEN in
    let group := inet_addr2str (group route) INET_ADDRSTR_LEN in
    ifset <- lift (fill_ifset route IF_ZERO);;
    let mc := set_mf6cc_ifset mc ifset in
    r <- setsockopt sd IPPROTO_IPV6 op (ArgMf6cctl mc);;
    if negb (r =? 0) then
      e <- get_errno;;
      (if ENOENT =? e then
         smclog LOG_DEBUG
           "failed removing IPv6 multicast route (%s,%s), does not exist."
           [AStr origin; AStr group]
       else
         e' <- get_errno;;
         smclog LOG_WARNING "failed %s IPv6 multicast route (%s,%s): %s"
           [AStr (if cmd =? chr "a" then "adding" else "removing");
            AStr origin; AStr group; AStr (strerror e')]);;
      ret 1
    else
      ret 0.

End Kern.

(** ** Reading a trace *)

Definition is_sockopt_call (e : event) : bool :=
  match e with Setsockopt _ _ _ _ => true | _ => false end.

Definition is_mrdisc_call (e : event) : bool :=
  match e with Mrdisc_enable _ | Mrdisc_disable _ => true | _ => false end.

(** The kernel requests of a trace, in order. *)
Definition sockopt_calls (t : list event) : list event :=
  List.filter is_sockopt_call t.

(** The calls to the discovery component of a trace, in order. *)
Definition mrdisc_calls (t : list event) : list event :=
  List.filter is_mrdisc_call t.

(** What the kernel answered to a request of the trace. *)
Definition answer (kernel : kernel_t) (e : event) : option kres :=
  match e with
  | Setsockopt sd level op arg => Some (kernel sd level op arg)
  | _ => None
  end.

(** ** The vocabulary of the statements *)

(** The structure that [kern_mroute4] has built when it calls the kernel. *)
Definition mfcctl_of {P : Platform} (route : mroute) : mfcctl :=
  {| mfcc_origin := inet_addr_get (source route);
     mfcc_mcastgrp := inet_addr_get (group route);
     mfcc_parent := inbound route;
     mfcc_ttls := take MAXVIFS (ttl route) |}.

(** The one of [kern_mroute6], given the interface set of its loop. *)
Definition mf6cctl_of {P : Platform} (route : mroute) (ifset : if_set) : mf6cctl :=
  {| mf6cc_origin := inet_addr6_get (source route);
     mf6cc_mcastgrp := inet_addr6_get (group route);
     mf6cc_parent := inbound route;
     mf6cc_ifset := ifset |}.

Definition mrt_op (cmd : Z) : sockopt :=
  if cmd =? chr "a" then MRT_ADD_MFC else MRT_DEL_MFC.

Definition mrt6_op (cmd : Z) : sockopt :=
  if cmd =? chr "a" then MRT6_ADD_MFC else MRT6_DEL_MFC.

(** [struct mroute] declares [ttl] with one size for both address
    families: no shorter than the vector of [struct mfcctl], and within
    the interface set of [struct mf6cctl]. *)
Definition route_fits {P : Platform} (route : mroute) : Prop :=
  (MAXVIFS <= length (ttl route))%nat /\ (length (ttl route) <= IF_SETSIZE)%nat.

(** The line of [kern_mroute4] for a route that does not exist, and the
    one for any other failure [e] of the command [cmd]. *)
Definition absent_line4 {P : Platform} (route : mroute) : event :=
  Smclog LOG_DEBUG "failed removing multicast route (%s,%s), does not exist."
    [AStr (inet_addr2str (source route) INET_ADDRSTRLEN);
     AStr (inet_addr2str (group route) INET_ADDRSTRLEN)].

Definition failure_line4 {P : Platform} (cmd : Z) (route : mroute) (e : Z) : event :=
  Smclog LOG_DEBUG "failed %s IPv4 multicast route (%s,%s): %s"
    [AStr (if cmd =? chr "a" then "adding" else "removing");
     AStr (inet_addr2str (source route) INET_ADDRSTRLEN);
     AStr (inet_addr2str (group route) INET_ADDRSTRLEN);
     AStr (strerror e)].

(** The same two lines of [kern_mroute6]. *)
Definition absent_line6 {P : Platform} (route : mroute) : event :=
  Smclog LOG_DEBUG "failed removing IPv6 multicast route (%s,%s), does not exist."
    [AStr (inet_addr2str (source route) INET_ADDRSTR_LEN);
     AStr (inet_addr2str (group route) INET_ADDRSTR_LEN)].

Definition failure_line6 {P : Platform} (cmd : Z) (route : mroute) (e : Z) : event :=
  Smclog LOG_WARNING "failed %s IPv6 multicast route (%s,%s): %s"
    [AStr (if cmd =? chr "a" then "adding" else "removing");
     AStr (inet_addr2str (source route) INET_ADDRSTR_LEN);
     AStr (inet_addr2str (group route) INET_ADDRSTR_LEN);
     AStr (strerror e)].

(** The option names by what they ask for. *)
Definition is_join_op (op : sockopt) : bool :=
  match op with
  | MCAST_JOIN_GROUP | MCAST_JOIN_SOURCE_GROUP
  | IP_ADD_MEMBERSHIP | IPV6_JOIN_GROUP => true
  | _ => false
  end.

Definition is_leave_op (op : sockopt) : bool :=
  match op with
  | MCAST_LEAVE_GROUP | MCAST_LEAVE_SOURCE_GROUP
  | IP_DROP_MEMBERSHIP | IPV6_LEAVE_GROUP => true
  | _ => false
  end.

(** Any-source and source-specific membership of RFC 3678, and the
    membership options of the old API. *)
Definition is_any_source_op (op : sockopt) : bool :=
  match op with
  | MCAST_JOIN_GROUP | MCAST_LEAVE_GROUP => true
  | _ => false
  end.

Definition is_source_specific_op (op : sockopt) : bool :=
  match op with
  | MCAST_JOIN_SOURCE_GROUP | MCAST_LEAVE_SOURCE_GROUP => true
  | _ => false
  end.

Definition is_old_membership_op (op : sockopt) : bool :=
  match op with
  | IP_ADD_MEMBERSHIP | IP_DROP_MEMBERSHIP
  | IPV6_JOIN_GROUP | IPV6_LEAVE_GROUP => true
  | _ => false
  end.

(** The source address that a request carries, if it has one. *)
Definition request_source (arg : sockopt_arg) : option inet_addr :=
  match arg with
  | ArgGroupSourceReq gsr => Some (gsr_source gsr)
  | _ => None
  end.

(** The rule of the specification for one request: any-source for the
    address "any", source-specific with that source otherwise. *)
Definition follows_source_rule {P : Platform} (mcg : mcgroup) (call : event) : Prop :=
  match call with
  | Setsockopt _ _ op arg =>
      if is_anyaddr (mcg_source mcg) then
        is_any_source_op op = true /\ request_source arg = None
      else
        is_source_specific_op op = true
        /\ request_source arg = Some (mcg_source mcg)
  | _ => False
  end.

(** A request of the old API: it has no source. *)
Definition old_api_request (call : event) : Prop :=
  match call with
  | Setsockopt _ _ op arg =>
      is_old_membership_op op = true /\ request_source arg = None
  | _ => False
  end.

(** The command that [kern_join_leave] dispatches. *)
Definition effective_cmd (cmd : Z) : Z := if cmd =? 0 then chr "j" else cmd.

(** The line of [kern_join_leave] for a failure [e]. *)
Definition failed_line {P : Platform} (sd cmd : Z) (mcg : mcgroup) (e : Z) : event :=
  Smclog LOG_ERR "Failed %s group (%s,%s/%d) on sd %d ... %d: %s"
    [AStr (if effective_cmd cmd =? chr "j" then "joining" else "leaving");
     AStr (if is_anyaddr (mcg_source mcg) then "*"
           else inet_addr2str (mcg_source mcg) INET_ADDRSTR_LEN);
     AStr (inet_addr2str (mcg_group mcg) INET_ADDRSTR_LEN);
     AInt (if mcg_len mcg =? 0 then 32 else mcg_len mcg);
     AInt sd; AInt e; AStr (strerror e)].

(** What a return value tells about the calls made: 0, one request that
    the kernel accepted; 1, one request that it refused; -1, no request. *)
Definition tri_state (kernel : kernel_t) (r : Z) (t : list event) : Prop :=
  (r = 0 /\ exists call,
      sockopt_calls t = [call] /\ answer kernel call = Some KOk)
  \/ (r = 1 /\ exists call e,
        sockopt_calls t = [call] /\ answer kernel call = Some (KErr e))
  \/ (r = -1 /\ sockopt_calls t = []).

(** ** More vocabulary: the shape of a request *)

(** The option that undoes a join. *)
Definition leave_of (op : sockopt) : sockopt :=
  match op with
  | MCAST_JOIN_GROUP => MCAST_LEAVE_GROUP
  | MCAST_JOIN_SOURCE_GROUP => MCAST_LEAVE_SOURCE_GROUP
  | IP_ADD_MEMBERSHIP => IP_DROP_MEMBERSHIP
  | IPV6_JOIN_GROUP => IPV6_LEAVE_GROUP
  | MRT_ADD_MFC => MRT_DEL_MFC
  | MRT6_ADD_MFC => MRT6_DEL_MFC
  | _ => op
  end.

(** The option names that a socket level knows: the options of RFC 3678
    exist at both levels, the others at the level of their family. *)
Definition op_level_ok (level : ipproto) (op : sockopt) : bool :=
  match op, level with
  | (MCAST_JOIN_GROUP | MCAST_LEAVE_GROUP
     | MCAST_JOIN_SOURCE_GROUP | MCAST_LEAVE_SOURCE_GROUP), _ => true
  | (IP_ADD_MEMBERSHIP | IP_DROP_MEMBERSHIP | MRT_ADD_MFC | MRT_DEL_MFC),
    IPPROTO_IP => true
  | (IPV6_JOIN_GROUP | IPV6_LEAVE_GROUP | MRT6_ADD_MFC | MRT6_DEL_MFC),
    IPPROTO_IPV6 => true
  | _, _ => false
  end.

(** The interface index that [group_req] has written into a membership
    request, and the interface address that it has written into it. *)
Definition request_ifindex (arg : sockopt_arg) : option Z :=
  match arg with
  | ArgGroupReq gr => Some (gr_interface gr)
  | ArgGroupSourceReq gsr => Some (gsr_interface gsr)
  | ArgIpv6Mreq m => Some (ipv6mr_interface m)
  | ArgIpMreqn m => Some (imr_ifindex m)
  | _ => None
  end.

Definition request_ifaddr (arg : sockopt_arg) : option Z :=
  match arg with
  | ArgIpMreq m => Some (imr_interface m)
  | ArgIpMreqn m => imr_address m
  | _ => None
  end.

(** Whether [group_req] has written every field of the structure. *)
Definition fully_written (arg : sockopt_arg) : bool :=
  match arg with
  | ArgIpMreqn m => match imr_address m with Some _ => true | None => false end
  | _ => true
  end.

(** The test of both variants of [group_req] on the family of the group. *)
Definition group_is_ipv6 {P : Platform} (mcg : mcgroup) : bool :=
  HAVE_IPV6_MULTICAST_HOST config
  && sa_family_eqb (ss_family (mcg_group mcg)) AF_INET6.

(** The builds and groups for which only [struct ip_mreq] is left. *)
Definition only_ip_mreq {P : Platform} (mcg : mcgroup) : bool :=
  negb (HAVE_STRUCT_GROUP_REQ config)
  && negb (group_is_ipv6 mcg)
  && negb (HAVE_STRUCT_IP_MREQN config).

(** The builds and groups for which [struct ip_mreqn] is used. *)
Definition uses_ip_mreqn {P : Platform} (mcg : mcgroup) : bool :=
  negb (HAVE_STRUCT_GROUP_REQ config)
  && negb (group_is_ipv6 mcg)
  && HAVE_STRUCT_IP_MREQN config.

(** The builds and groups for which the interface field of the request is
    unsigned: those of RFC 3678 and [struct ipv6_mreq]. *)
Definition index_is_unsigned {P : Platform} (mcg : mcgroup) : bool :=
  HAVE_STRUCT_GROUP_REQ config || group_is_ipv6 mcg.

(** A word of [struct if_set]. *)
Definition word_ok (w : Z) : Prop := 0 <= w < 2 ^ Z.of_nat NIFBITS.

(** A trace with no line above debug severity. *)
Definition debug_only (t : list event) : Prop :=
  forall sev fmt args, In (Smclog sev fmt args) t -> sev = LOG_DEBUG.

(** Two routes that differ in their [ttl] arrays at most. *)
Definition same_endpoints (r1 r2 : mroute) : Prop :=
  source r1 = source r2 /\ group r1 = group r2 /\ inbound r1 = inbound r2.

(** ** A platform for the examples

    Linux with glibc: 32 virtual interfaces, a 46 byte buffer for
    [INET_ADDRSTR_LEN] and the 16 bytes of [INET_ADDRSTRLEN]; a logger and
    a discovery component that leave [errno] as they find it. *)

(** Modelled from the spec: [is_anyaddr], which is defined outside
    [kern.c]; true when the address is the all-zeros unspecified value. *)
Definition is_anyaddr_zero (a : inet_addr) : bool :=
  forallb (Z.eqb 0) (ss_addr a).

Definition show_Z (z : Z) : string :=
  DecimalString.NilZero.string_of_int (Z.to_int z).

Fixpoint join_with (sep : string) (l : list string) : string :=
  match l with
  | [] => ""%string
  | [s] => s
  | s :: l' => String.append s (String.append sep (join_with sep l'))
  end.

(** Modelled from the spec: [inet_addr2str], which is defined outside
    [kern.c]; renders a numeric address as text and truncates it to the
    buffer. The bytes are printed in decimal. *)
Definition addr2str (a : inet_addr) (len : nat) : string :=
  let sep := if sa_family_eqb (ss_family a) AF_INET6 then ":"%string else "."%string in
  String.substring 0 (len - 1) (join_with sep (List.map show_Z (ss_addr a))).

(** Modelled from the spec: [inet_addr_get], which is defined outside
    [kern.c]; the raw 32-bit value of the address, in network order. *)
Definition addr_get (a : inet_addr) : Z :=
  fold_left (fun acc b => acc * 256 + b) (ss_addr a) 0.

(** Modelled from the spec: [inet_addr6_get], which is defined outside
    [kern.c]; the address as a [struct sockaddr_in6], with no port, flow
    or scope. *)
Definition sockaddr6_of (a : inet_addr) : sockaddr_in6 :=
  {| sin6_family := ss_family a;
     sin6_port := 0;
     sin6_flowinfo := 0;
     sin6_addr := ss_addr a;
     sin6_scope_id := 0 |}.

Definition strerror_linux (e : Z) : string :=
  if e =? 1 then "Operation not permitted"
  else if e =? 2 then "No such file or directory"
  else if e =? 9 then "Bad file descriptor"
  else if e =? 22 then "Invalid argument"
  else if e =? 99 then "Cannot assign requested address"
  else "Unknown error".

Definition linux (cfg : build_config) : Platform :=
  {| config := cfg;
     MAXVIFS := 32;
     INET_ADDRSTR_LEN := 46;
     INET_ADDRSTRLEN := 16;
     is_anyaddr := is_anyaddr_zero;
     inet_addr2str := addr2str;
     inet_addr_get := addr_get;
     inet_addr6_get := sockaddr6_of;
     strerror := strerror_linux;
     errno_after := fun _ e => e |}.

(** The build that prefers RFC 3678, and the one left with the old API. *)
Definition cfg_rfc3678 : build_config :=
  {| HAVE_STRUCT_GROUP_REQ := true;
     HAVE_IPV6_MULTICAST_HOST := true;
     HAVE_STRUCT_IP_MREQN := true |}.

Definition cfg_legacy : build_config :=
  {| HAVE_STRUCT_GROUP_REQ := false;
     HAVE_IPV6_MULTICAST_HOST := true;
     HAVE_STRUCT_IP_MREQN := true |}.

Definition EBADF : Z := 9.
Definition EADDRNOTAVAIL : Z := 99.

(** A kernel that accepts every request on a descriptor that is not
    negative, and one that knows no route and no membership. *)
Definition kernel_accepts : kernel_t :=
  fun sd _ _ _ => if sd <? 0 then KErr EBADF else KOk.

Definition kernel_empty : kernel_t :=
  fun sd _ op _ =>
    if sd <? 0 then KErr EBADF
    else match op with
         | MRT_DEL_MFC | MRT6_DEL_MFC => KErr ENOENT
         | MCAST_LEAVE_GROUP | MCAST_LEAVE_SOURCE_GROUP
         | IP_DROP_MEMBERSHIP | IPV6_LEAVE_GROUP => KErr EADDRNOTAVAIL
         | _ => KOk
         end.

Definition eth0 : iface := {| ifindex := 2; inaddr := 3232235777 |}.

Definition addr4 (a b c d : Z) : inet_addr :=
  {| ss_family := AF_INET; ss_addr := [a; b; c; d] |}.

(** Any source to 239.1.1.1, and 10.0.0.1 to 232.1.1.1, on [eth0]. *)
Definition mcg_asm : mcgroup :=
  {| mcg_iface := eth0; mcg_source := addr4 0 0 0 0;
     mcg_group := addr4 239 1 1 1; mcg_len := 0 |}.

Definition mcg_ssm : mcgroup :=
  {| mcg_iface := eth0; mcg_source := addr4 10 0 0 1;
     mcg_group := addr4 232 1 1 1; mcg_len := 0 |}.

(** A route from interface 0 to interfaces 1 and 3. *)
Definition route_0513 : mroute :=
  {| source := addr4 10 0 0 1; group := addr4 239 1 1 1; inbound := 0;
     ttl := [0; 5; 0; 3] ++ replicate 28 0 |}.

(** The same route in an array of 40 entries, the last 36 of them set. *)
Definition route_long : mroute :=
  {| source := addr4 10 0 0 1; group := addr4 239 1 1 1; inbound := 0;
     ttl := [0; 5; 0; 3] ++ replicate 36 7 |}.

(** A kernel that finds no entry, whatever it is asked, and one that
    gives the caller no permission. *)
Definition kernel_enoent : kernel_t := fun _ _ _ _ => KErr ENOENT.

Definition EPERM : Z := 1.

Definition kernel_eperm : kernel_t := fun _ _ _ _ => KErr EPERM.

(** [route_long] cut to the 32 entries that the kernel takes, and
    [route_0513] with other thresholds on the same interfaces. *)
Definition route_long_cut : mroute :=
  {| source := addr4 10 0 0 1; group := addr4 239 1 1 1; inbound := 0;
     ttl := [0; 5; 0; 3] ++ replicate 28 7 |}.

Definition route_0901 : mroute :=
  {| source := addr4 10 0 0 1; group := addr4 239 1 1 1; inbound := 0;
     ttl := [0; 9; 0; 1] ++ replicate 28 0 |}.

(** A route with interface 256 set, in an array of 257 entries. *)
Definition route_257 : mroute :=
  {| source := addr4 10 0 0 1; group := addr4 239 1 1 1; inbound := 0;
     ttl := replicate 256 0 ++ [1] |}.

(** [eth0] in the build that has [struct ip_mreq] only. *)
Definition cfg_ip_mreq : build_config :=
  {| HAVE_STRUCT_GROUP_REQ := false;
     HAVE_IPV6_MULTICAST_HOST := true;
     HAVE_STRUCT_IP_MREQN := false |}.

(** ** Proof automation *)

(** Decide the conditions of the goal one after the other. *)
Ltac case_ifs :=
  repeat match goal with
         | |- context [if ?x =? ?y then _ else _] =>
             destruct (x =? y) eqn:?; cbn -[Z.eqb]
         end;
  try reflexivity.

(** Evaluate a computation whose kernel answer is known, leaving the
    comparisons of variables in place. *)
Ltac eval_answer :=
  cbn -[Z.eqb];
  repeat first [ change (-1 =? 0) with false | change (0 =? 0) with true ];
  cbn -[Z.eqb].

(** The conjuncts that hold by computation, then the run of [group_req]
    for each command. *)
Ltac request_shape :=
  do 4 (split; [reflexivity|]); (split; [split; reflexivity|]);
  (split; [reflexivity|]);
  intros cmd w; unfold bind, smclog, emit, setsockopt; cbn -[Z.eqb];
  destruct (cmd =? chr "j"); eexists; split;
  [|rewrite <- app_assoc; reflexivity| |rewrite <- app_assoc; reflexivity];
  reflexivity.

(** Membership of a line in a trace that is known up to its
    conditions. *)
Ltac line_cases Hin :=
  cbn -[Z.eqb] in Hin;
  repeat match type of Hin with
         | context [if ?b then _ else _] => destruct b; cbn -[Z.eqb] in Hin
         end;
  repeat (destruct Hin as [Hin|Hin];
          [try discriminate; try (injection Hin as <- _ _; reflexivity)|]);
  try contradiction.

(** ** The loops *)

Section Loops.

Lemma array_set_Some {A} (a : list A) (i : nat) (v : A) :
  (i < length a)%nat -> array_set a i v = Some (<[i:=v]> a).
Proof.
  intros Hi. unfold array_set. destruct (decide (i < length a)%nat); [reflexivity | lia].
Qed.

(** The copy loop, started at index [i] with [n] rounds to go, on a
    destination that already agrees with the source below [i]. *)
Lemma copy_loop_inv (src : list Z) :
  forall (n i : nat) (dst : list Z),
    (i + n = length dst)%nat ->
    (length dst <= length src)%nat ->
    (forall j, (j < i)%nat -> dst !! j = src !! j) ->
    exists out,
      for_loop n i
        (fun i ttls =>
           match array_get src i with
           | Some v => array_set ttls i v
           | None => None
           end) dst = Some out
      /\ length out = length dst
      /\ (forall j, (j < length dst)%nat -> out !! j = src !! j).
Proof.
  induction n as [|n IH]; intros i dst Hlen Hle Hlow.
  - exists dst. simpl. split; [reflexivity|]. split; [reflexivity|].
    intros j Hj. apply Hlow. lia.
  - simpl. unfold array_get.
    destruct (lookup_lt_is_Some_2 src i) as [v Hv]; [lia|].
    rewrite Hv, array_set_Some by lia.
    destruct (IH (S i) (<[i:=v]> dst)) as (out & Hrun & Hlo & Hout).
    + rewrite length_insert. lia.
    + rewrite length_insert. exact Hle.
    + intros j Hj. destruct (decide (j = i)) as [->|Hne].
      * rewrite list_lookup_insert_eq by lia. symmetry; exact Hv.
      * rewrite list_lookup_insert_ne by congruence. apply Hlow. lia.
    + exists out. rewrite length_insert in Hlo, Hout. auto.
Qed.

(** [land w (1 << k)] is nonzero exactly when bit [k] of [w] is set. *)
Lemma land_bit_testbit (w k : Z) :
  0 <= k -> negb (Z.land w (Z.shiftl 1 k) =? 0) = Z.testbit w k.
Proof.
  intros Hk. rewrite Z.shiftl_1_l.
  destruct (Z.testbit w k) eqn:Hb.
  - destruct (Z.eqb_spec (Z.land w (2 ^ k)) 0) as [H0|]; [|reflexivity].
    exfalso. assert (Hk' : Z.testbit (Z.land w (2 ^ k)) k = true).
    { rewrite Z.land_spec, Hb, Z.pow2_bits_true by exact Hk. reflexivity. }
    rewrite H0, Z.bits_0 in Hk'. discriminate.
  - replace (Z.land w (2 ^ k)) with 0; [reflexivity|].
    symmetry. apply Z.bits_inj'. intros n Hn.
    rewrite Z.land_spec, Z.bits_0, Z.pow2_bits_eqb by exact Hk.
    destruct (Z.eqb_spec k n) as [->|]; [rewrite Hb; reflexivity|apply andb_false_r].
Qed.

(** A bit position is its word and its offset in the word. *)
Lemma bit_position_eq (i j : nat) :
  i = j <-> (i / NIFBITS = j / NIFBITS /\ i mod NIFBITS = j mod NIFBITS)%nat.
Proof.
  unfold NIFBITS. split; [intros ->; auto|]. intros [Hd Hm].
  rewrite (Nat.div_mod_eq i 32), (Nat.div_mod_eq j 32). congruence.
Qed.

Lemma IF_ISSET_IF_ZERO (j : nat) : IF_ISSET j IF_ZERO = false.
Proof.
  unfold IF_ISSET, array_get, IF_ZERO.
  destruct (replicate _ _ !! _) as [w|] eqn:Hw; [|reflexivity].
  apply lookup_replicate_1 in Hw as [-> _]. reflexivity.
Qed.

(** [IF_SET] on a set of the right size, at a position below
    [IF_SETSIZE]: bit [i] is set and no other one changes. *)
Lemma IF_SET_spec (i : nat) (p : if_set) :
  length p = (IF_SETSIZE / NIFBITS)%nat ->
  (i < IF_SETSIZE)%nat ->
  exists p',
    IF_SET i p = Some p'
    /\ length p' = length p
    /\ (forall j, IF_ISSET j p' = (j =? i)%nat || IF_ISSET j p).
Proof.
  intros Hlen Hi.
  assert (Hword : (i / NIFBITS < length p)%nat).
  { rewrite Hlen. unfold NIFBITS, IF_SETSIZE in *.
    apply Nat.Div0.div_lt_upper_bound. simpl. lia. }
  destruct (lookup_lt_is_Some_2 p (i / NIFBITS)) as [w Hw]; [exact Hword|].
  unfold IF_SET, array_get. rewrite Hw, array_set_Some by exact Hword.
  eexists. split; [reflexivity|]. split; [apply length_insert|].
  intros j. unfold IF_ISSET, array_get.
  destruct (decide (j / NIFBITS = i / NIFBITS)%nat) as [Heq|Hne].
  - rewrite Heq, list_lookup_insert_eq, Hw by exact Hword.
    rewrite !land_bit_testbit by lia.
    rewrite Z.lor_spec, Z.shiftl_1_l, Z.pow2_bits_eqb by lia.
    rewrite orb_comm. f_equal.
    destruct (Nat.eqb_spec j i) as [->|Hji].
    + apply Z.eqb_refl.
    + apply Z.eqb_neq. intros Hmod. apply Hji, bit_position_eq. split; [exact Heq|lia].
  - rewrite list_lookup_insert_ne by congruence.
    destruct (Nat.eqb_spec j i) as [->|]; [congruence|reflexivity].
Qed.

(** The bitset loop, started at index [i] with [n] rounds to go, on a
    set that has exactly the bits of the nonzero entries below [i]. *)
Lemma ifset_loop_inv (ttls : list Z) :
  forall (n i : nat) (p : if_set),
    (i + n = length ttls)%nat ->
    (length ttls <= IF_SETSIZE)%nat ->
    length p = (IF_SETSIZE / NIFBITS)%nat ->
    (forall j, IF_ISSET j p = true <->
               (j < i)%nat /\ exists v, ttls !! j = Some v /\ v <> 0) ->
    exists out,
      for_loop n i
        (fun i ifset =>
           match array_get ttls i with
           | Some v => if negb (v =? 0) then IF_SET i ifset else Some ifset
           | None => None
           end) p = Some out
      /\ length out = (IF_SETSIZE / NIFBITS)%nat
      /\ (forall j, IF_ISSET j out = true <->
                    exists v, ttls !! j = Some v /\ v <> 0).
Proof.
  induction n as [|n IH]; intros i p Hn Hle Hlen Hinv.
  - exists p. simpl. split; [reflexivity|]. split; [exact Hlen|].
    intros j. rewrite Hinv. split; [intros [_ H]; exact H|].
    intros (v & Hv & Hnz). split; [|eauto].
    apply lookup_lt_Some in Hv. lia.
  - simpl. unfold array_get.
    destruct (lookup_lt_is_Some_2 ttls i) as [v Hv]; [lia|]. rewrite Hv.
    destruct (Z.eqb_spec v 0) as [Hz|Hnz]; simpl.
    + apply (IH (S i) p); [lia|exact Hle|exact Hlen|].
      intros j. rewrite Hinv. split.
      * intros [Hj H]. split; [lia|exact H].
      * intros [Hj (v' & Hv' & Hnz')]. split; [|eauto].
        destruct (decide (j = i)) as [->|]; [congruence|lia].
    + destruct (IF_SET_spec i p Hlen) as (p' & Hset & Hlen' & Hbits); [lia|].
      rewrite Hset. apply (IH (S i) p'); [lia|exact Hle|congruence|].
      intros j. rewrite Hbits, orb_true_iff, Hinv. split.
      * intros [Hji|[Hj H]].
        -- apply Nat.eqb_eq in Hji as ->. split; [lia|eauto].
        -- split; [lia|exact H].
      * intros [Hj H]. destruct (Nat.eqb_spec j i) as [|Hne]; [left; reflexivity|].
        right. split; [lia|exact H].
Qed.

End Loops.

(** ** The two forwarding-cache operations, case by case *)

Section Mroute.

Context {P : Platform} (kernel : kernel_t).

(** On a route whose array has room for the kernel's vector, the copy loop
    ends, with the first [MAXVIFS] entries of [route->ttl]. *)
Lemma copy_ttls_take (route : mroute) :
  (MAXVIFS <= length (ttl route))%nat ->
  copy_ttls route (replicate MAXVIFS 0) = Some (take MAXVIFS (ttl route)).
Proof.
  intros Hlen. unfold copy_ttls.
  destruct (copy_loop_inv (ttl route) (length (replicate MAXVIFS 0)) 0
              (replicate MAXVIFS 0)) as (out & Hrun & Hlo & Hout).
  - reflexivity.
  - rewrite length_replicate. exact Hlen.
  - intros j Hj. lia.
  - rewrite Hrun. f_equal. rewrite length_replicate in Hlo, Hout.
    apply list_eq. intros j. destruct (decide (j < MAXVIFS)%nat) as [Hj|Hj].
    + rewrite lookup_take_lt by exact Hj. apply Hout, Hj.
    + rewrite lookup_take_ge by lia. apply lookup_ge_None_2. lia.
Qed.

(** On a route whose array is shorter, the loop reads past its end. *)
Lemma copy_ttls_short (route : mroute) :
  (length (ttl route) < MAXVIFS)%nat ->
  copy_ttls route (replicate MAXVIFS 0) = None.
Proof.
  intros Hlen. unfold copy_ttls. rewrite length_replicate.
  assert (Hgen : forall n i (dst : list Z),
             (i <= length (ttl route))%nat -> (length (ttl route) < i + n)%nat ->
             for_loop n i
               (fun i ttls =>
                  match array_get (ttl route) i with
                  | Some v => array_set ttls i v
                  | None => None
                  end) dst = None).
  { induction n as [|n IH]; intros i dst Hi Hn; [lia|]. simpl. unfold array_get.
    destruct (ttl route !! i) as [v|] eqn:Hv; [|reflexivity].
    apply lookup_lt_Some in Hv.
    destruct (array_set dst i v); [|reflexivity]. apply IH; lia. }
  apply Hgen; lia.
Qed.

(** On a route whose array fits the interface set, the bitset loop ends,
    with exactly the bits of the nonzero entries. *)
Lemma fill_ifset_bits (route : mroute) :
  (length (ttl route) <= IF_SETSIZE)%nat ->
  exists ifset,
    fill_ifset route IF_ZERO = Some ifset
    /\ length ifset = (IF_SETSIZE / NIFBITS)%nat
    /\ (forall j, IF_ISSET j ifset = true <->
                  exists v, ttl route !! j = Some v /\ v <> 0).
Proof.
  intros Hlen. unfold fill_ifset.
  apply (ifset_loop_inv (ttl route) (length (ttl route)) 0 IF_ZERO);
    [reflexivity|exact Hlen|apply length_replicate|].
  intros j. rewrite IF_ISSET_IF_ZERO. split; [discriminate|]. intros [Hj _]. lia.
Qed.

Lemma kern_mroute4_no_socket (cmd : Z) (route : mroute) (active : Z) (w : world) :
  kern_mroute4 kernel (-1) cmd route active w
  = Some (-1, {| errno := errno_after (Smclog LOG_DEBUG "No IPv4 multicast socket" [])
                            (errno w);
                 trace := trace w ++ [Smclog LOG_DEBUG "No IPv4 multicast socket" []] |}).
Proof. reflexivity. Qed.

Lemma kern_mroute6_no_socket (sd cmd : Z) (route : mroute) (w : world) :
  sd < 0 ->
  kern_mroute6 kernel sd cmd route w
  = Some (-1, {| errno := errno_after (Smclog LOG_DEBUG "No IPv6 multicast socket" [])
                            (errno w);
                 trace := trace w ++ [Smclog LOG_DEBUG "No IPv6 multicast socket" []] |}).
Proof.
  intros Hsd. unfold kern_mroute6.
  destruct (Z.ltb_spec sd 0) as [_|]; [reflexivity|lia].
Qed.

(** [kern_mroute4] past its guard: one request, then what the answer
    commands. *)
Lemma kern_mroute4_call (sd cmd : Z) (route : mroute) (active : Z) (w : world) :
  sd <> -1 ->
  (MAXVIFS <= length (ttl route))%nat ->
  let call := Setsockopt sd IPPROTO_IP (mrt_op cmd) (ArgMfcctl (mfcctl_of route)) in
  let origin := inet_addr2str (source route) INET_ADDRSTRLEN in
  let grp := inet_addr2str (group route) INET_ADDRSTRLEN in
  kern_mroute4 kernel sd cmd route active w
  = match kernel sd IPPROTO_IP (mrt_op cmd) (ArgMfcctl (mfcctl_of route)) with
    | KErr e =>
        let line :=
          if ENOENT =? e then
            Smclog LOG_DEBUG
              "failed removing multicast route (%s,%s), does not exist."
              [AStr origin; AStr grp]
          else
            Smclog LOG_DEBUG "failed %s IPv4 multicast route (%s,%s): %s"
              [AStr (if cmd =? chr "a" then "adding" else "removing");
               AStr origin; AStr grp; AStr (strerror e)] in
        Some (1, {| errno := errno_after line e;
                    trace := (trace w ++ [call]) ++ [line] |})
    | KOk =>
        let line :=
          Smclog LOG_DEBUG "%s %s -> %s from VIF %d"
            [AStr (if cmd =? chr "a" then "Add" else "Del");
             AStr origin; AStr grp; AInt (inbound route)] in
        let notice :=
          if cmd =? chr "a" then Mrdisc_enable (inbound route)
          else Mrdisc_disable (inbound route) in
        Some (0, {| errno :=
                      if active =? 0 then errno w
                      else errno_after notice (errno_after line (errno w));
                    trace :=
                      if active =? 0 then trace w ++ [call]
                      else ((trace w ++ [call]) ++ [line]) ++ [notice] |})
    end.
Proof.
  intros Hsd Hlen. unfold kern_mroute4.
  destruct (Z.eqb_spec sd (-1)) as [|_]; [contradiction|].
  unfold bind at 1. simpl mfcc_ttls. rewrite (copy_ttls_take route Hlen).
  unfold lift, ret, bind, setsockopt, set_mfcc_ttls, get_errno, smclog,
    mrdisc_enable, mrdisc_disable, emit, mrt_op, mfcctl_of. cbn -[Z.eqb].
  destruct (kernel _ _ _ _) as [|e]; eval_answer; case_ifs.
Qed.

(** [kern_mroute6] past its guard. *)
Lemma kern_mroute6_call (sd cmd : Z) (route : mroute) (ifset : if_set) (w : world) :
  0 <= sd ->
  fill_ifset route IF_ZERO = Some ifset ->
  let call :=
    Setsockopt sd IPPROTO_IPV6 (mrt6_op cmd) (ArgMf6cctl (mf6cctl_of route ifset)) in
  let origin := inet_addr2str (source route) INET_ADDRSTR_LEN in
  let grp := inet_addr2str (group route) INET_ADDRSTR_LEN in
  kern_mroute6 kernel sd cmd route w
  = match kernel sd IPPROTO_IPV6 (mrt6_op cmd)
            (ArgMf6cctl (mf6cctl_of route ifset)) with
    | KErr e =>
        let line :=
          if ENOENT =? e then
            Smclog LOG_DEBUG
              "failed removing IPv6 multicast route (%s,%s), does not exist."
              [AStr origin; AStr grp]
          else
            Smclog LOG_WARNING "failed %s IPv6 multicast route (%s,%s): %s"
              [AStr (if cmd =? chr "a" then "adding" else "removing");
               AStr origin; AStr grp; AStr (strerror e)] in
        Some (1, {| errno := errno_after line e;
                    trace := (trace w ++ [call]) ++ [line] |})
    | KOk => Some (0, {| errno := errno w; trace := trace w ++ [call] |})
    end.
Proof.
  intros Hsd Hfill. unfold kern_mroute6.
  destruct (Z.ltb_spec sd 0) as [|_]; [lia|].
  unfold bind at 1. rewrite Hfill.
  unfold lift, ret, bind, setsockopt, set_mf6cc_ifset, get_errno, smclog,
    emit, mrt6_op, mf6cctl_of. cbn -[Z.eqb].
  destruct (kernel _ _ _ _) as [|e]; eval_answer; case_ifs.
Qed.

(** C2, on [kern_mroute4]: the guard of the IPv4 operation is [sd == -1],
    so that a negative descriptor below -1 goes to the kernel, and the
    return value is not the one of "no socket", while [kern_mroute6]
    stops every negative descriptor (lemma [kern_mroute6_no_socket]). *)
Theorem kern_mroute4_guard_only_minus_one
    (sd cmd : Z) (route : mroute) (active e0 : Z) :
  sd < -1 ->
  (MAXVIFS <= length (ttl route))%nat ->
  exists r w',
    run (kern_mroute4 kernel sd cmd route active) e0 = Some (r, w')
    /\ r <> -1
    /\ sockopt_calls (trace w')
       = [Setsockopt sd IPPROTO_IP (mrt_op cmd) (ArgMfcctl (mfcctl_of route))].
Proof.
  intros Hsd Hlen. unfold run.
  rewrite kern_mroute4_call by (try exact Hlen; lia).
  destruct (kernel _ _ _ _) as [|e]; do 2 eexists;
    (split; [reflexivity|]); (split; [discriminate|]); cbn -[Z.eqb]; case_ifs.
Qed.

(** C3: [kern_mroute4] hands the kernel a TTL vector of exactly
    [MAXVIFS] entries, however long the array of the route is, and entry
    [i] of it is entry [i] of the route for every [i] below [MAXVIFS]. *)
Theorem kern_mroute4_ttl_vector
    (sd cmd : Z) (route : mroute) (active e0 : Z) :
  sd <> -1 ->
  (MAXVIFS <= length (ttl route))%nat ->
  exists r w' mc,
    run (kern_mroute4 kernel sd cmd route active) e0 = Some (r, w')
    /\ sockopt_calls (trace w')
       = [Setsockopt sd IPPROTO_IP (mrt_op cmd) (ArgMfcctl mc)]
    /\ length (mfcc_ttls mc) = MAXVIFS
    /\ (forall i, (i < MAXVIFS)%nat -> mfcc_ttls mc !! i = ttl route !! i).
Proof.
  intros Hsd Hlen. unfold run.
  rewrite kern_mroute4_call by assumption.
  assert (Hvec : length (mfcc_ttls (mfcctl_of route)) = MAXVIFS
                 /\ (forall i, (i < MAXVIFS)%nat ->
                               mfcc_ttls (mfcctl_of route) !! i = ttl route !! i)).
  { simpl. split; [apply length_take_le, Hlen|]. intros i Hi. apply lookup_take_lt, Hi. }
  destruct (kernel _ _ _ _) as [|e]; do 2 eexists; exists (mfcctl_of route);
    (split; [reflexivity|]); (split; [|exact Hvec]); cbn -[Z.eqb]; case_ifs.
Qed.

(** C4: [kern_mroute6] hands the kernel an interface set in which bit
    [i] is set if and only if entry [i] of the TTL vector of the route
    is not zero; for the vector 0, 5, 0, 3 (and zeros after it) these are
    bits 1 and 3 and no other. *)
Theorem kern_mroute6_interface_set
    (sd cmd : Z) (route : mroute) (e0 : Z) :
  0 <= sd ->
  (length (ttl route) <= IF_SETSIZE)%nat ->
  exists r w' mc,
    run (kern_mroute6 kernel sd cmd route) e0 = Some (r, w')
    /\ sockopt_calls (trace w')
       = [Setsockopt sd IPPROTO_IPV6 (mrt6_op cmd) (ArgMf6cctl mc)]
    /\ (forall i, IF_ISSET i (mf6cc_ifset mc) = true <->
                  exists v, ttl route !! i = Some v /\ v <> 0)
    /\ (forall n, ttl route = [0; 5; 0; 3] ++ replicate n 0 ->
                  forall i, IF_ISSET i (mf6cc_ifset mc) = true <->
                            i = 1%nat \/ i = 3%nat).
Proof.
  intros Hsd Hlen. unfold run.
  destruct (fill_ifset_bits route Hlen) as (ifset & Hfill & _ & Hbits).
  rewrite (kern_mroute6_call sd cmd route ifset) by assumption.
  assert (Hset : (forall i, IF_ISSET i (mf6cc_ifset (mf6cctl_of route ifset)) = true <->
                            exists v, ttl route !! i = Some v /\ v <> 0)
                 /\ (forall n, ttl route = [0; 5; 0; 3] ++ replicate n 0 ->
                               forall i,
                                 IF_ISSET i (mf6cc_ifset (mf6cctl_of route ifset)) = true
                                 <-> i = 1%nat \/ i = 3%nat)).
  { simpl. split; [exact Hbits|]. intros n Hn i. rewrite Hbits, Hn.
    destruct i as [|[|[|[|i]]]]; simpl.
    - split; [intros (v & [= <-] & Hv); contradiction | intros [|]; discriminate].
    - split; [auto | intros _; exists 5; split; [reflexivity | discriminate]].
    - split; [intros (v & [= <-] & Hv); contradiction | intros [|]; discriminate].
    - split; [auto | intros _; exists 3; split; [reflexivity | discriminate]].
    - split; [|intros [|]; discriminate].
      intros (v & Hv & Hnz). apply lookup_replicate_1 in Hv as [-> _]. contradiction. }
  destruct (kernel _ _ _ _) as [|e]; do 2 eexists; exists (mf6cctl_of route ifset);
    (split; [reflexivity|]); (split; [|exact Hset]); cbn -[Z.eqb]; case_ifs.
Qed.

(** Both operations, past their guard: the request comes first in the
    trace, and a failure [e] of it gives the value 1 and one line after
    the request. *)
Lemma kern_mroute4_failure (sd cmd : Z) (route : mroute) (active e0 : Z) :
  sd <> -1 ->
  (MAXVIFS <= length (ttl route))%nat ->
  exists r w' call,
    run (kern_mroute4 kernel sd cmd route active) e0 = Some (r, w')
    /\ is_sockopt_call call = true
    /\ head (trace w') = Some call
    /\ (forall e, answer kernel call = Some (KErr e) ->
                  r = 1
                  /\ trace w' = [call; if ENOENT =? e then absent_line4 route
                                       else failure_line4 cmd route e]).
Proof.
  intros Hsd Hlen. unfold run. rewrite kern_mroute4_call by assumption.
  cbn -[Z.eqb]. destruct (kernel _ _ _ _) as [|e'] eqn:Hk; do 2 eexists;
    exists (Setsockopt sd IPPROTO_IP (mrt_op cmd) (ArgMfcctl (mfcctl_of route)));
    (split; [reflexivity|]); (split; [reflexivity|]); cbn -[Z.eqb].
  - split; [destruct (active =? 0); reflexivity|].
    intros e He. rewrite Hk in He. discriminate.
  - split; [reflexivity|]. intros e He. rewrite Hk in He. injection He as <-.
    repeat split.
Qed.

Lemma kern_mroute6_failure (sd cmd : Z) (route : mroute) (e0 : Z) :
  0 <= sd ->
  (length (ttl route) <= IF_SETSIZE)%nat ->
  exists r w' call,
    run (kern_mroute6 kernel sd cmd route) e0 = Some (r, w')
    /\ is_sockopt_call call = true
    /\ head (trace w') = Some call
    /\ (forall e, answer kernel call = Some (KErr e) ->
                  r = 1
                  /\ trace w' = [call; if ENOENT =? e then absent_line6 route
                                       else failure_line6 cmd route e]).
Proof.
  intros Hsd Hlen. unfold run.
  destruct (fill_ifset_bits route Hlen) as (ifset & Hfill & _).
  rewrite (kern_mroute6_call sd cmd route ifset) by assumption.
  cbn -[Z.eqb]. destruct (kernel _ _ _ _) as [|e'] eqn:Hk; do 2 eexists;
    exists (Setsockopt sd IPPROTO_IPV6 (mrt6_op cmd)
              (ArgMf6cctl (mf6cctl_of route ifset)));
    (split; [reflexivity|]); (split; [reflexivity|]); cbn -[Z.eqb];
    (split; [reflexivity|]); intros e He; rewrite Hk in He; [discriminate|].
  injection He as <-. repeat split.
Qed.

(** C5: a failed request of [kern_mroute4] or [kern_mroute6] is
    diagnosed at debug severity as a route that does not exist when
    [errno] is [ENOENT]; otherwise with the name of the operation and the
    text of [errno], at debug severity for IPv4 and at warning severity
    for IPv6; the value returned is 1 in all these cases. *)
Theorem mroute_failure_diagnostics
    (sd cmd : Z) (route : mroute) (active e0 : Z) :
  route_fits route ->
  (sd <> -1 ->
   exists r w' call,
     run (kern_mroute4 kernel sd cmd route active) e0 = Some (r, w')
     /\ is_sockopt_call call = true
     /\ head (trace w') = Some call
     /\ (forall e, answer kernel call = Some (KErr e) ->
           r = 1
           /\ trace w'
              = [call;
                 if ENOENT =? e then
                   Smclog LOG_DEBUG
                     "failed removing multicast route (%s,%s), does not exist."
                     [AStr (inet_addr2str (source route) INET_ADDRSTRLEN);
                      AStr (inet_addr2str (group route) INET_ADDRSTRLEN)]
                 else
                   Smclog LOG_DEBUG "failed %s IPv4 multicast route (%s,%s): %s"
                     [AStr (if cmd =? chr "a" then "adding" else "removing");
                      AStr (inet_addr2str (source route) INET_ADDRSTRLEN);
                      AStr (inet_addr2str (group route) INET_ADDRSTRLEN);
                      AStr (strerror e)]]))
  /\ (0 <= sd ->
      exists r w' call,
        run (kern_mroute6 kernel sd cmd route) e0 = Some (r, w')
        /\ is_sockopt_call call = true
        /\ head (trace w') = Some call
        /\ (forall e, answer kernel call = Some (KErr e) ->
              r = 1
              /\ trace w'
                 = [call;
                    if ENOENT =? e then
                      Smclog LOG_DEBUG
                        "failed removing IPv6 multicast route (%s,%s), does not exist."
                        [AStr (inet_addr2str (source route) INET_ADDRSTR_LEN);
                         AStr (inet_addr2str (group route) INET_ADDRSTR_LEN)]
                    else
                      Smclog LOG_WARNING "failed %s IPv6 multicast route (%s,%s): %s"
                        [AStr (if cmd =? chr "a" then "adding" else "removing");
                         AStr (inet_addr2str (source route) INET_ADDRSTR_LEN);
                         AStr (inet_addr2str (group route) INET_ADDRSTR_LEN);
                         AStr (strerror e)]])).
Proof.
  intros [Hlo Hhi]. split; intros Hsd.
  - destruct (kern_mroute4_failure sd cmd route active e0 Hsd Hlo)
      as (r & w' & call & Hrun & Hcall & Hhd & Hfail).
    exists r, w', call. repeat (split; [assumption|]).
    intros e He. destruct (Hfail e He) as (Hr & Ht). split; [exact Hr|exact Ht].
  - destruct (kern_mroute6_failure sd cmd route e0 Hsd Hhi)
      as (r & w' & call & Hrun & Hcall & Hhd & Hfail).
    exists r, w', call. repeat (split; [assumption|]).
    intros e He. destruct (Hfail e He) as (Hr & Ht). split; [exact Hr|exact Ht].
Qed.

(** C10: the line after a refused request is chosen by [errno] alone,
    not by the operation. For every command, the request of [kern_mroute4]
    is an addition for 'a' and a removal otherwise ([kern_mroute6]
    likewise); when the kernel refuses it with [ENOENT], the line is the
    debug line "failed removing ... does not exist", for a refused
    addition as for a refused removal; when it refuses it with another
    [errno], the line is the one that names the operation. *)
Theorem enoent_branch_by_errno_alone
    (sd cmd : Z) (route : mroute) (active e0 : Z) :
  route_fits route ->
  (sd <> -1 ->
   exists r w' mc,
     run (kern_mroute4 kernel sd cmd route active) e0 = Some (r, w')
     /\ head (trace w')
        = Some (Setsockopt sd IPPROTO_IP
                  (if cmd =? chr "a" then MRT_ADD_MFC else MRT_DEL_MFC)
                  (ArgMfcctl mc))
     /\ (forall e,
           kernel sd IPPROTO_IP
             (if cmd =? chr "a" then MRT_ADD_MFC else MRT_DEL_MFC)
             (ArgMfcctl mc) = KErr e ->
           r = 1
           /\ exists line,
                trace w'
                = [Setsockopt sd IPPROTO_IP
                     (if cmd =? chr "a" then MRT_ADD_MFC else MRT_DEL_MFC)
                     (ArgMfcctl mc);
                   line]
                /\ (e = ENOENT ->
                    line
                    = Smclog LOG_DEBUG
                        "failed removing multicast route (%s,%s), does not exist."
                        [AStr (inet_addr2str (source route) INET_ADDRSTRLEN);
                         AStr (inet_addr2str (group route) INET_ADDRSTRLEN)])
                /\ (e <> ENOENT ->
                    line
                    = Smclog LOG_DEBUG "failed %s IPv4 multicast route (%s,%s): %s"
                        [AStr (if cmd =? chr "a" then "adding" else "removing");
                         AStr (inet_addr2str (source route) INET_ADDRSTRLEN);
                         AStr (inet_addr2str (group route) INET_ADDRSTRLEN);
                         AStr (strerror e)])))
  /\ (0 <= sd ->
      exists r w' mc,
        run (kern_mroute6 kernel sd cmd route) e0 = Some (r, w')
        /\ head (trace w')
           = Some (Setsockopt sd IPPROTO_IPV6
                     (if cmd =? chr "a" then MRT6_ADD_MFC else MRT6_DEL_MFC)
                     (ArgMf6cctl mc))
        /\ (forall e,
              kernel sd IPPROTO_IPV6
                (if cmd =? chr "a" then MRT6_ADD_MFC else MRT6_DEL_MFC)
                (ArgMf6cctl mc) = KErr e ->
              r = 1
              /\ exists line,
                   trace w'
                   = [Setsockopt sd IPPROTO_IPV6
                        (if cmd =? chr "a" then MRT6_ADD_MFC else MRT6_DEL_MFC)
                        (ArgMf6cctl mc);
                      line]
                   /\ (e = ENOENT ->
                       line
                       = Smclog LOG_DEBUG
                           "failed removing IPv6 multicast route (%s,%s), does not exist."
                           [AStr (inet_addr2str (source route) INET_ADDRSTR_LEN);
                            AStr (inet_addr2str (group route) INET_ADDRSTR_LEN)])
                   /\ (e <> ENOENT ->
                       line
                       = Smclog LOG_WARNING
                           "failed %s IPv6 multicast route (%s,%s): %s"
                           [AStr (if cmd =? chr "a" then "adding" else "removing");
                            AStr (inet_addr2str (source route) INET_ADDRSTR_LEN);
                            AStr (inet_addr2str (group route) INET_ADDRSTR_LEN);
                            AStr (strerror e)]))).
Proof.
  intros [Hlo Hhi]. split; intros Hsd.
  - unfold run. rewrite kern_mroute4_call by assumption. unfold mrt_op. cbn zeta.
    destruct (kernel _ _ _ _) as [|e'] eqn:Hk; do 2 eexists;
      exists (mfcctl_of route); (split; [reflexivity|]); split.
    + cbn -[Z.eqb]. destruct (active =? 0); reflexivity.
    + intros e He. rewrite Hk in He. discriminate.
    + reflexivity.
    + intros e He. rewrite Hk in He. injection He as <-.
      split; [reflexivity|]. eexists. split; [reflexivity|].
      split; intros Hcase.
      * subst e'. reflexivity.
      * destruct (Z.eqb_spec ENOENT e'); [congruence|reflexivity].
  - unfold run. destruct (fill_ifset_bits route Hhi) as (ifset & Hfill & _).
    rewrite (kern_mroute6_call sd cmd route ifset) by assumption.
    unfold mrt6_op. cbn zeta.
    destruct (kernel _ _ _ _) as [|e'] eqn:Hk; do 2 eexists;
      exists (mf6cctl_of route ifset); (split; [reflexivity|]); split.
    + reflexivity.
    + intros e He. rewrite Hk in He. discriminate.
    + reflexivity.
    + intros e He. rewrite Hk in He. injection He as <-.
      split; [reflexivity|]. eexists. split; [reflexivity|].
      split; intros Hcase.
      * subst e'. reflexivity.
      * destruct (Z.eqb_spec ENOENT e'); [congruence|reflexivity].
Qed.

(** C6: [kern_mroute4] calls the discovery component once, for the
    inbound interface of the route, when the kernel has accepted the
    request and [active] is set: [mrdisc_enable] for the command 'a',
    [mrdisc_disable] otherwise. It does not call it when [active] is 0,
    when the request has failed or when there is no socket, and
    [kern_mroute6] never does. *)
Theorem mrdisc_only_for_active_routes
    (sd cmd : Z) (route : mroute) (active e0 : Z) :
  route_fits route ->
  (exists r w',
     run (kern_mroute4 kernel sd cmd route active) e0 = Some (r, w')
     /\ (r = 0 <-> sd <> -1 /\ kernel sd IPPROTO_IP (mrt_op cmd)
                                 (ArgMfcctl (mfcctl_of route)) = KOk)
     /\ mrdisc_calls (trace w')
        = if (r =? 0) && negb (active =? 0) then
            [if cmd =? chr "a" then Mrdisc_enable (inbound route)
             else Mrdisc_disable (inbound route)]
          else [])
  /\ (exists r w',
        run (kern_mroute6 kernel sd cmd route) e0 = Some (r, w')
        /\ mrdisc_calls (trace w') = []).
Proof.
  intros [Hlo Hhi]. split.
  - unfold run. destruct (Z.eq_dec sd (-1)) as [->|Hsd].
    + rewrite kern_mroute4_no_socket. do 2 eexists. split; [reflexivity|].
      split; [|reflexivity]. split; [discriminate|]. intros [H _]. contradiction.
    + rewrite kern_mroute4_call by assumption.
      destruct (kernel _ _ _ _) as [|e]; do 2 eexists; (split; [reflexivity|]).
      * split; [split; auto|]. cbn -[Z.eqb]. case_ifs.
      * split; [split; [discriminate|intros [_ H]; discriminate]|].
        cbn -[Z.eqb]. case_ifs.
  - unfold run. destruct (Z.lt_ge_cases sd 0) as [Hsd|Hsd].
    + rewrite kern_mroute6_no_socket by exact Hsd. do 2 eexists.
      split; reflexivity.
    + destruct (fill_ifset_bits route Hhi) as (ifset & Hfill & _).
      rewrite (kern_mroute6_call sd cmd route ifset) by assumption.
      destruct (kernel _ _ _ _) as [|e]; do 2 eexists; (split; [reflexivity|]);
        cbn -[Z.eqb]; case_ifs.
Qed.

End Mroute.

(** ** Group membership *)

Section Membership.

Context {P : Platform} (kernel : kernel_t).

(** [group_req]: a debug line that names the operation, the group and the
    interface, then one request, whose answer is returned. *)
Lemma group_req_shape (sd cmd : Z) (mcg : mcgroup) (w : world) :
  exists fmt rest level op arg,
    let dbg :=
      Smclog LOG_DEBUG fmt
        (AStr (if cmd =? chr "j" then "Join" else "Leave") :: rest) in
    let call := Setsockopt sd level op arg in
    group_req kernel sd cmd mcg w
    = match kernel sd level op arg with
      | KOk => Some (0, {| errno := errno_after dbg (errno w);
                           trace := trace w ++ [dbg; call] |})
      | KErr e => Some (-1, {| errno := e; trace := trace w ++ [dbg; call] |})
      end
    /\ In (AStr (inet_addr2str (mcg_group mcg) INET_ADDRSTR_LEN)) rest
    /\ In (AInt (ifindex (mcg_iface mcg))) rest
    /\ is_join_op op = (cmd =? chr "j")
    /\ is_leave_op op = negb (cmd =? chr "j")
    /\ (if HAVE_STRUCT_GROUP_REQ config then follows_source_rule mcg call
        else old_api_request call).
Proof.
  unfold group_req, group_req_rfc3678, group_req_legacy, follows_source_rule,
    old_api_request.
  destruct (HAVE_STRUCT_GROUP_REQ config).
  - destruct (is_anyaddr (mcg_source mcg)); do 5 eexists;
      (split; [unfold bind, smclog, emit, setsockopt; cbn -[Z.eqb];
               rewrite <- app_assoc; reflexivity|]);
      cbn -[Z.eqb]; destruct (cmd =? chr "j"); cbn; intuition reflexivity.
  - destruct (HAVE_IPV6_MULTICAST_HOST config
              && sa_family_eqb (ss_family (mcg_group mcg)) AF_INET6);
      [|destruct (HAVE_STRUCT_IP_MREQN config)];
      do 5 eexists;
      (split; [unfold bind, smclog, emit, setsockopt; cbn -[Z.eqb];
               rewrite <- app_assoc; reflexivity|]);
      cbn -[Z.eqb]; destruct (cmd =? chr "j"); cbn; intuition reflexivity.
Qed.

(** [kern_join_leave]: what [group_req] does for the effective command,
    then the error line when the kernel has refused. *)
Lemma kern_join_leave_shape (sd cmd : Z) (mcg : mcgroup) (e0 : Z) :
  exists fmt rest level op arg,
    let dbg :=
      Smclog LOG_DEBUG fmt
        (AStr (if effective_cmd cmd =? chr "j" then "Join" else "Leave") :: rest) in
    let call := Setsockopt sd level op arg in
    run (kern_join_leave kernel sd cmd mcg) e0
    = match kernel sd level op arg with
      | KOk => Some (0, {| errno := errno_after dbg e0; trace := [dbg; call] |})
      | KErr e =>
          Some (1, {| errno := errno_after (failed_line sd cmd mcg e) e;
                      trace := [dbg; call; failed_line sd cmd mcg e] |})
      end
    /\ In (AStr (inet_addr2str (mcg_group mcg) INET_ADDRSTR_LEN)) rest
    /\ In (AInt (ifindex (mcg_iface mcg))) rest
    /\ is_join_op op = (effective_cmd cmd =? chr "j")
    /\ is_leave_op op = negb (effective_cmd cmd =? chr "j")
    /\ (if HAVE_STRUCT_GROUP_REQ config then follows_source_rule mcg call
        else old_api_request call).
Proof.
  destruct (group_req_shape sd (effective_cmd cmd) mcg {| errno := e0; trace := [] |})
    as (fmt & rest & level & op & arg & Hreq & Hprops).
  exists fmt, rest, level, op, arg. cbn zeta in *. split; [|exact Hprops].
  unfold run, kern_join_leave. fold (effective_cmd cmd).
  unfold bind at 1. rewrite Hreq. unfold failed_line.
  destruct (kernel sd level op arg) as [|e]; [reflexivity|].
  unfold bind, get_errno, smclog, emit, ret. cbn -[Z.eqb].
  destruct (is_anyaddr (mcg_source mcg)); reflexivity.
Qed.

(** C7: [kern_join_leave] logs a debug line that names the operation,
    the group and the interface before it calls the kernel; when the
    kernel refuses, it logs one line at error severity with the
    operation, the source (an asterisk for the address "any"), the group,
    the prefix length (32 when the length of the request is 0), the
    socket descriptor, [errno] and its text. *)
Theorem membership_diagnostics (sd cmd : Z) (mcg : mcgroup) (e0 : Z) :
  exists r w' fmt rest call,
    let dbg :=
      Smclog LOG_DEBUG fmt
        (AStr (if effective_cmd cmd =? chr "j" then "Join" else "Leave") :: rest) in
    run (kern_join_leave kernel sd cmd mcg) e0 = Some (r, w')
    /\ In (AStr (inet_addr2str (mcg_group mcg) INET_ADDRSTR_LEN)) rest
    /\ In (AInt (ifindex (mcg_iface mcg))) rest
    /\ is_sockopt_call call = true
    /\ match answer kernel call with
       | Some KOk => r = 0 /\ trace w' = [dbg; call]
       | Some (KErr e) =>
           r = 1
           /\ trace w'
              = [dbg; call;
                 Smclog LOG_ERR "Failed %s group (%s,%s/%d) on sd %d ... %d: %s"
                   [AStr (if effective_cmd cmd =? chr "j" then "joining"
                          else "leaving");
                    AStr (if is_anyaddr (mcg_source mcg) then "*"
                          else inet_addr2str (mcg_source mcg) INET_ADDRSTR_LEN);
                    AStr (inet_addr2str (mcg_group mcg) INET_ADDRSTR_LEN);
                    AInt (if mcg_len mcg =? 0 then 32 else mcg_len mcg);
                    AInt sd; AInt e; AStr (strerror e)]]
       | None => False
       end.
Proof.
  destruct (kern_join_leave_shape sd cmd mcg e0)
    as (fmt & rest & level & op & arg & Hrun & Hgrp & Hif & _).
  cbn zeta in Hrun.
  destruct (kernel sd level op arg) as [|e] eqn:Hk;
    do 2 eexists; exists fmt, rest, (Setsockopt sd level op arg); cbn zeta;
    (split; [exact Hrun|]); (split; [exact Hgrp|]); (split; [exact Hif|]);
    (split; [reflexivity|]); cbn [answer]; rewrite Hk; split; reflexivity.
Qed.

(** C9: [kern_join_leave] takes the command 0 for 'j', and asks the
    kernel for a join if and only if the command is then 'j'; every other
    command asks for a leave. *)
Theorem join_iff_command_j (sd cmd : Z) (mcg : mcgroup) (e0 : Z) :
  (forall w, kern_join_leave kernel sd 0 mcg w
             = kern_join_leave kernel sd (chr "j") mcg w)
  /\ exists r w' level op arg,
       run (kern_join_leave kernel sd cmd mcg) e0 = Some (r, w')
       /\ sockopt_calls (trace w') = [Setsockopt sd level op arg]
       /\ is_join_op op = ((if cmd =? 0 then chr "j" else cmd) =? chr "j")
       /\ is_leave_op op = negb ((if cmd =? 0 then chr "j" else cmd) =? chr "j").
Proof.
  split; [reflexivity|].
  destruct (kern_join_leave_shape sd cmd mcg e0)
    as (fmt & rest & level & op & arg & Hrun & _ & _ & Hjoin & Hleave & _).
  cbn zeta in Hrun. unfold effective_cmd in Hjoin, Hleave.
  destruct (kernel sd level op arg) as [|e];
    do 2 eexists; exists level, op, arg;
    (split; [exact Hrun|]); (split; [reflexivity|]); split; assumption.
Qed.


End Membership.

(** ** Return values *)

Section Outcomes.

Context {P : Platform} (kernel : kernel_t).

Lemma kern_join_leave_outcome (sd cmd : Z) (mcg : mcgroup) (e0 : Z) :
  exists r w',
    run (kern_join_leave kernel sd cmd mcg) e0 = Some (r, w')
    /\ tri_state kernel r (trace w')
    /\ (r = 0 \/ r = 1).
Proof.
  destruct (kern_join_leave_shape kernel sd cmd mcg e0)
    as (fmt & rest & level & op & arg & Hrun & _).
  cbn zeta in Hrun.
  destruct (kernel sd level op arg) as [|e] eqn:Hk;
    do 2 eexists; (split; [exact Hrun|]); unfold tri_state; cbn.
  - split; [left|left; reflexivity]. split; [reflexivity|].
    eexists. split; [reflexivity|]. cbn. rewrite Hk. reflexivity.
  - split; [right; left|right; reflexivity]. split; [reflexivity|].
    do 2 eexists. split; [reflexivity|]. cbn. rewrite Hk. reflexivity.
Qed.

Lemma kern_mroute4_outcome (sd cmd : Z) (route : mroute) (active e0 : Z) :
  (MAXVIFS <= length (ttl route))%nat ->
  exists r w',
    run (kern_mroute4 kernel sd cmd route active) e0 = Some (r, w')
    /\ tri_state kernel r (trace w')
    /\ (r = -1 <-> sd = -1).
Proof.
  intros Hlen. unfold run. destruct (Z.eq_dec sd (-1)) as [->|Hsd].
  - rewrite kern_mroute4_no_socket. do 2 eexists. split; [reflexivity|].
    split; [|tauto]. right; right. split; reflexivity.
  - rewrite kern_mroute4_call by assumption.
    destruct (kernel _ _ _ _) as [|e] eqn:Hk;
      do 2 eexists; (split; [reflexivity|]);
      (split; [|split; [discriminate|contradiction]]).
    + left. split; [reflexivity|]. eexists. split.
      * cbn -[Z.eqb]. case_ifs.
      * cbn. rewrite Hk. reflexivity.
    + right; left. split; [reflexivity|]. do 2 eexists. split.
      * cbn -[Z.eqb]. case_ifs.
      * cbn. rewrite Hk. reflexivity.
Qed.

Lemma kern_mroute6_outcome (sd cmd : Z) (route : mroute) (e0 : Z) :
  (length (ttl route) <= IF_SETSIZE)%nat ->
  exists r w',
    run (kern_mroute6 kernel sd cmd route) e0 = Some (r, w')
    /\ tri_state kernel r (trace w')
    /\ (r = -1 <-> sd < 0).
Proof.
  intros Hlen. unfold run. destruct (Z.lt_ge_cases sd 0) as [Hsd|Hsd].
  - rewrite kern_mroute6_no_socket by exact Hsd. do 2 eexists.
    split; [reflexivity|]. split; [|tauto]. right; right. split; reflexivity.
  - destruct (fill_ifset_bits route Hlen) as (ifset & Hfill & _).
    rewrite (kern_mroute6_call kernel sd cmd route ifset) by assumption.
    destruct (kernel _ _ _ _) as [|e] eqn:Hk;
      do 2 eexists; (split; [reflexivity|]);
      (split; [|split; [discriminate|lia]]).
    + left. split; [reflexivity|]. eexists. split; [reflexivity|].
      cbn. rewrite Hk. reflexivity.
    + right; left. split; [reflexivity|]. do 2 eexists. split.
      * cbn -[Z.eqb]. case_ifs.
      * cbn. rewrite Hk. reflexivity.
Qed.

(** C8: the three operations return 0 when the kernel has accepted the
    request and 1 when it has refused it; [kern_mroute4] and
    [kern_mroute6] return -1, which is neither, when they have no socket
    and have made no request; [kern_join_leave] returns 0 or 1 only. *)
Theorem return_values
    (sd cmd : Z) (mcg : mcgroup) (route : mroute) (active e0 : Z) :
  route_fits route ->
  (exists r w',
     run (kern_join_leave kernel sd cmd mcg) e0 = Some (r, w')
     /\ tri_state kernel r (trace w')
     /\ (r = 0 \/ r = 1))
  /\ (exists r w',
        run (kern_mroute4 kernel sd cmd route active) e0 = Some (r, w')
        /\ tri_state kernel r (trace w')
        /\ (r = -1 <-> sd = -1))
  /\ (exists r w',
        run (kern_mroute6 kernel sd cmd route) e0 = Some (r, w')
        /\ tri_state kernel r (trace w')
        /\ (r = -1 <-> sd < 0)).
Proof.
  intros [Hlo Hhi]. split; [apply kern_join_leave_outcome|].
  split; [apply kern_mroute4_outcome, Hlo | apply kern_mroute6_outcome, Hhi].
Qed.

End Outcomes.

(** ** The shape of a membership request *)

Section MembershipShape.

Context {P : Platform} (kernel : kernel_t).

(** [group_req]: level and argument are those of the request, whatever
    the command; the command chooses between a join option and the leave
    option that goes with it. *)
Lemma group_req_request (sd : Z) (mcg : mcgroup) :
  exists opj arg,
    is_join_op opj = true
    /\ is_leave_op (leave_of opj) = true
    /\ op_level_ok (if group_is_ipv6 mcg then IPPROTO_IPV6 else IPPROTO_IP) opj = true
    /\ op_level_ok (if group_is_ipv6 mcg then IPPROTO_IPV6 else IPPROTO_IP)
         (leave_of opj) = true
    /\ (if only_ip_mreq mcg then
          request_ifaddr arg = Some (inaddr (mcg_iface mcg))
          /\ request_ifindex arg = None
        else
          request_ifindex arg
          = Some (if index_is_unsigned mcg then uint32 (ifindex (mcg_iface mcg))
                  else ifindex (mcg_iface mcg))
          /\ request_ifaddr arg = None)
    /\ fully_written arg = negb (uses_ip_mreqn mcg)
    /\ forall cmd w,
         exists dbg,
           is_sockopt_call dbg = false
           /\ group_req kernel sd cmd mcg w
              = let call :=
                  Setsockopt sd (if group_is_ipv6 mcg then IPPROTO_IPV6 else IPPROTO_IP)
                    (if cmd =? chr "j" then opj else leave_of opj) arg in
                match kernel sd (if group_is_ipv6 mcg then IPPROTO_IPV6 else IPPROTO_IP)
                        (if cmd =? chr "j" then opj else leave_of opj) arg with
                | KOk => Some (0, {| errno := errno_after dbg (errno w);
                                     trace := trace w ++ [dbg; call] |})
                | KErr e => Some (-1, {| errno := e; trace := trace w ++ [dbg; call] |})
                end.
Proof.
  unfold group_req, group_req_rfc3678, group_req_legacy, only_ip_mreq,
    index_is_unsigned, uses_ip_mreqn, group_is_ipv6.
  destruct (HAVE_STRUCT_GROUP_REQ config); cbn [negb andb orb].
  - destruct (is_anyaddr (mcg_source mcg)).
    + exists MCAST_JOIN_GROUP,
        (ArgGroupReq {| gr_interface := uint32 (ifindex (mcg_iface mcg));
                        gr_group := mcg_group mcg |}).
      destruct (HAVE_IPV6_MULTICAST_HOST config
                && sa_family_eqb (ss_family (mcg_group mcg)) AF_INET6);
        request_shape.
    + exists MCAST_JOIN_SOURCE_GROUP,
        (ArgGroupSourceReq {| gsr_interface := uint32 (ifindex (mcg_iface mcg));
                              gsr_source := mcg_source mcg;
                              gsr_group := mcg_group mcg |}).
      destruct (HAVE_IPV6_MULTICAST_HOST config
                && sa_family_eqb (ss_family (mcg_group mcg)) AF_INET6);
        request_shape.
  - destruct (HAVE_IPV6_MULTICAST_HOST config
              && sa_family_eqb (ss_family (mcg_group mcg)) AF_INET6); cbn [negb andb].
    + exists IPV6_JOIN_GROUP,
        (ArgIpv6Mreq {| ipv6mr_multiaddr := sin6_addr (inet_addr6_get (mcg_group mcg));
                        ipv6mr_interface := uint32 (ifindex (mcg_iface mcg)) |}).
      request_shape.
    + destruct (HAVE_STRUCT_IP_MREQN config); cbn [negb].
      * exists IP_ADD_MEMBERSHIP,
          (ArgIpMreqn {| imrn_multiaddr := inet_addr_get (mcg_group mcg);
                         imr_address := None;
                         imr_ifindex := ifindex (mcg_iface mcg) |}).
        request_shape.
      * exists IP_ADD_MEMBERSHIP,
          (ArgIpMreq {| imr_multiaddr := inet_addr_get (mcg_group mcg);
                        imr_interface := inaddr (mcg_iface mcg) |}).
        request_shape.
Qed.

(** The same for [kern_join_leave], with the command it dispatches. *)
Lemma kern_join_leave_request (sd : Z) (mcg : mcgroup) :
  exists opj arg,
    is_join_op opj = true
    /\ is_leave_op (leave_of opj) = true
    /\ op_level_ok (if group_is_ipv6 mcg then IPPROTO_IPV6 else IPPROTO_IP) opj = true
    /\ op_level_ok (if group_is_ipv6 mcg then IPPROTO_IPV6 else IPPROTO_IP)
         (leave_of opj) = true
    /\ (if only_ip_mreq mcg then
          request_ifaddr arg = Some (inaddr (mcg_iface mcg))
          /\ request_ifindex arg = None
        else
          request_ifindex arg
          = Some (if index_is_unsigned mcg then uint32 (ifindex (mcg_iface mcg))
                  else ifindex (mcg_iface mcg))
          /\ request_ifaddr arg = None)
    /\ fully_written arg = negb (uses_ip_mreqn mcg)
    /\ forall cmd e0,
         exists r w',
           run (kern_join_leave kernel sd cmd mcg) e0 = Some (r, w')
           /\ sockopt_calls (trace w')
              = [Setsockopt sd (if group_is_ipv6 mcg then IPPROTO_IPV6 else IPPROTO_IP)
                   (if effective_cmd cmd =? chr "j" then opj else leave_of opj) arg].
Proof.
  destruct (group_req_request sd mcg)
    as (opj & arg & Hj & Hl & Hlj & Hll & Hkey & Hfull & Hreq).
  exists opj, arg. repeat (split; [assumption|]).
  intros cmd e0. unfold run, kern_join_leave. fold (effective_cmd cmd).
  destruct (Hreq (effective_cmd cmd) {| errno := e0; trace := [] |})
    as (dbg & Hdbg & Heq).
  unfold bind at 1. rewrite Heq. cbn zeta.
  destruct (kernel _ _ _ _) as [|e]; do 2 eexists;
    (split; [reflexivity|]); unfold sockopt_calls; cbn; rewrite Hdbg; reflexivity.
Qed.

(** X1: the socket level of a membership request follows the family of
    the group alone: [IPPROTO_IPV6] for an [AF_INET6] group in a build
    with IPv6 multicast, [IPPROTO_IP] in every other case; and the
    option name is one that this level knows, in both variants. *)
Theorem membership_level_by_group_family (sd cmd : Z) (mcg : mcgroup) (e0 : Z) :
  exists r w' level op arg,
    run (kern_join_leave kernel sd cmd mcg) e0 = Some (r, w')
    /\ sockopt_calls (trace w') = [Setsockopt sd level op arg]
    /\ level = (if HAVE_IPV6_MULTICAST_HOST config
                   && sa_family_eqb (ss_family (mcg_group mcg)) AF_INET6
                then IPPROTO_IPV6 else IPPROTO_IP)
    /\ op_level_ok level op = true.
Proof.
  destruct (kern_join_leave_request sd mcg)
    as (opj & arg & _ & _ & Hlj & Hll & _ & _ & Hrun).
  destruct (Hrun cmd e0) as (r & w' & Hr & Hcalls).
  exists r, w'. do 3 eexists. split; [exact Hr|]. split; [exact Hcalls|].
  split; [reflexivity|]. destruct (effective_cmd cmd =? chr "j"); assumption.
Qed.

(** X2: [group_req] writes the index of the interface into the
    membership request, reduced modulo 2^32 in the unsigned fields
    [gr_interface], [gsr_interface] and [ipv6mr_interface] and as it is in
    the [int] field [imr_ifindex], and it writes no interface address
    ([imr_address] of [struct ip_mreqn] stays unwritten); except in the
    build that has neither the RFC 3678 API nor [struct ip_mreqn], for a
    group that is not handled as IPv6: there it writes the address of the
    interface, and no index. *)
Theorem membership_interface_key (sd cmd : Z) (mcg : mcgroup) (e0 : Z) :
  exists r w' level op arg,
    run (kern_join_leave kernel sd cmd mcg) e0 = Some (r, w')
    /\ sockopt_calls (trace w') = [Setsockopt sd level op arg]
    /\ if negb (HAVE_STRUCT_GROUP_REQ config)
          && negb (HAVE_IPV6_MULTICAST_HOST config
                   && sa_family_eqb (ss_family (mcg_group mcg)) AF_INET6)
          && negb (HAVE_STRUCT_IP_MREQN config)
       then
         request_ifaddr arg = Some (inaddr (mcg_iface mcg))
         /\ request_ifindex arg = None
       else
         request_ifindex arg
         = Some (if HAVE_STRUCT_GROUP_REQ config
                    || (HAVE_IPV6_MULTICAST_HOST config
                        && sa_family_eqb (ss_family (mcg_group mcg)) AF_INET6)
                 then ifindex (mcg_iface mcg) mod 2 ^ 32
                 else ifindex (mcg_iface mcg))
         /\ request_ifaddr arg = None.
Proof.
  destruct (kern_join_leave_request sd mcg)
    as (opj & arg & _ & _ & _ & _ & Hkey & _ & Hrun).
  destruct (Hrun cmd e0) as (r & w' & Hr & Hcalls).
  exists r, w'. do 3 eexists. split; [exact Hr|]. split; [exact Hcalls|].
  exact Hkey.
Qed.

(** X3: a leave is the join with the other option name: for a command
    that is neither 0 nor 'j', [kern_join_leave] sends the descriptor and
    the level that it sends for 'j', the leave option that goes with the
    join option, and the same value in every field that [group_req]
    writes. It writes every field of the structure, except in the build
    that uses [struct ip_mreqn], where neither request has [imr_address]
    written. *)
Theorem leave_mirrors_join (sd cmd : Z) (mcg : mcgroup) (e0 e1 : Z) :
  cmd <> 0 ->
  cmd <> chr "j" ->
  exists level opj arg rj wj rl wl,
    run (kern_join_leave kernel sd (chr "j") mcg) e0 = Some (rj, wj)
    /\ run (kern_join_leave kernel sd cmd mcg) e1 = Some (rl, wl)
    /\ sockopt_calls (trace wj) = [Setsockopt sd level opj arg]
    /\ sockopt_calls (trace wl) = [Setsockopt sd level (leave_of opj) arg]
    /\ is_join_op opj = true
    /\ is_leave_op (leave_of opj) = true
    /\ fully_written arg
       = negb (negb (HAVE_STRUCT_GROUP_REQ config)
               && negb (HAVE_IPV6_MULTICAST_HOST config
                        && sa_family_eqb (ss_family (mcg_group mcg)) AF_INET6)
               && HAVE_STRUCT_IP_MREQN config).
Proof.
  intros H0 Hj.
  destruct (kern_join_leave_request sd mcg)
    as (opj & arg & Hjoin & Hleave & _ & _ & _ & Hfull & Hrun).
  destruct (Hrun (chr "j") e0) as (rj & wj & Hrj & Hcj).
  destruct (Hrun cmd e1) as (rl & wl & Hrl & Hcl).
  exists (if group_is_ipv6 mcg then IPPROTO_IPV6 else IPPROTO_IP), opj, arg,
    rj, wj, rl, wl.
  split; [exact Hrj|]. split; [exact Hrl|]. split; [exact Hcj|].
  split; [|split; [assumption|split; [assumption|exact Hfull]]].
  rewrite Hcl. unfold effective_cmd.
  destruct (Z.eqb_spec cmd 0) as [|_]; [contradiction|].
  destruct (Z.eqb_spec cmd (chr "j")) as [|_]; [contradiction|]. reflexivity.
Qed.

End MembershipShape.

(** ** More on the loops *)

Section LoopsMore.

(** Two loop bodies that agree give the same loop. *)
Lemma for_loop_ext {S} (f g : nat -> S -> option S) :
  (forall j s, f j s = g j s) ->
  forall n i s, for_loop n i f s = for_loop n i g s.
Proof.
  intros Hfg. induction n as [|n IH]; intros i s; [reflexivity|].
  simpl. rewrite Hfg. destruct (g i s); [apply IH|reflexivity].
Qed.

(** [IF_SET] at a position from [IF_SETSIZE] on writes past the set. *)
Lemma IF_SET_None (i : nat) (p : if_set) :
  length p = (IF_SETSIZE / NIFBITS)%nat ->
  (IF_SETSIZE <= i)%nat ->
  IF_SET i p = None.
Proof.
  intros Hlen Hi. unfold IF_SET, array_get.
  rewrite lookup_ge_None_2; [reflexivity|]. rewrite Hlen.
  unfold IF_SETSIZE, NIFBITS in *. apply Nat.Div0.div_le_mono. exact Hi.
Qed.

Lemma word_ok_log2 (w : Z) : word_ok w -> Z.log2 w < Z.of_nat NIFBITS.
Proof.
  unfold word_ok, NIFBITS. intros [Hlo Hhi].
  destruct (Z.eq_dec w 0) as [->|Hnz]; [reflexivity|].
  apply Z.log2_lt_pow2; lia.
Qed.

(** Setting a bit of a word leaves a word. *)
Lemma word_ok_set_bit (w : Z) (k : nat) :
  word_ok w -> (k < NIFBITS)%nat ->
  word_ok (Z.lor w (Z.shiftl 1 (Z.of_nat k))).
Proof.
  intros Hw Hk. pose proof (word_ok_log2 w Hw) as Hlog.
  destruct Hw as [Hlo Hhi]. rewrite Z.shiftl_1_l.
  assert (Hpow : 0 < 2 ^ Z.of_nat k) by (apply Z.pow_pos_nonneg; lia).
  split; [apply Z.lor_nonneg; lia|].
  assert (Hpos : 0 < Z.lor w (2 ^ Z.of_nat k)).
  { assert (Hnn : 0 <= Z.lor w (2 ^ Z.of_nat k)) by (apply Z.lor_nonneg; lia).
    destruct (Z.eq_dec (Z.lor w (2 ^ Z.of_nat k)) 0) as [H0|]; [|lia].
    apply Z.lor_eq_0_iff in H0. lia. }
  apply Z.log2_lt_pow2; [exact Hpos|].
  rewrite Z.log2_lor by lia. rewrite Z.log2_pow2 by lia.
  unfold NIFBITS in *. lia.
Qed.

Lemma IF_SET_word_ok (i : nat) (p p' : if_set) :
  Forall word_ok p ->
  IF_SET i p = Some p' ->
  Forall word_ok p' /\ length p' = length p.
Proof.
  intros Hp. unfold IF_SET, array_get, array_set.
  destruct (_ !! _) as [w|] eqn:Hw; [|discriminate].
  destruct (decide _); [|discriminate]. intros [= <-].
  split; [|apply length_insert].
  apply Forall_insert; [exact Hp|].
  apply word_ok_set_bit; [exact (Forall_lookup_1 _ _ _ _ Hp Hw)|].
  exact (Nat.mod_upper_bound i NIFBITS ltac:(discriminate)).
Qed.

(** The bitset loop keeps the size of the set and its words. *)
Lemma ifset_loop_words (ttls : list Z) :
  forall (n i : nat) (p out : if_set),
    Forall word_ok p ->
    for_loop n i
      (fun i ifset =>
         match array_get ttls i with
         | Some v => if negb (v =? 0) then IF_SET i ifset else Some ifset
         | None => None
         end) p = Some out ->
    Forall word_ok out /\ length out = length p.
Proof.
  induction n as [|n IH]; intros i p out Hp; simpl.
  - intros [= <-]. auto.
  - destruct (array_get ttls i) as [v|]; [|discriminate].
    destruct (negb (v =? 0)).
    + destruct (IF_SET i p) as [p'|] eqn:Hset; [|discriminate].
      destruct (IF_SET_word_ok i p p' Hp Hset) as [Hp' Hlen].
      intros Hrun. destruct (IH _ _ _ Hp' Hrun) as [Hout Hlo].
      split; [exact Hout|congruence].
    + apply IH, Hp.
Qed.

(** The bitset loop fails exactly when an entry that is not zero lies at
    a position from [IF_SETSIZE] on. *)
Lemma ifset_loop_None (ttls : list Z) :
  forall (n i : nat) (p : if_set),
    (i + n = length ttls)%nat ->
    length p = (IF_SETSIZE / NIFBITS)%nat ->
    for_loop n i
      (fun i ifset =>
         match array_get ttls i with
         | Some v => if negb (v =? 0) then IF_SET i ifset else Some ifset
         | None => None
         end) p = None
    <-> exists j v, (i <= j)%nat /\ ttls !! j = Some v /\ v <> 0
                    /\ (IF_SETSIZE <= j)%nat.
Proof.
  induction n as [|n IH]; intros i p Hn Hlen; simpl.
  - split; [discriminate|]. intros (j & v & Hj & Hv & _).
    apply lookup_lt_Some in Hv. lia.
  - unfold array_get at 1.
    destruct (lookup_lt_is_Some_2 ttls i) as [v Hv]; [lia|]. rewrite Hv.
    destruct (Z.eqb_spec v 0) as [Hz|Hnz]; cbn [negb].
    + rewrite (IH (S i) p) by (try exact Hlen; lia). split.
      * intros (j & v' & Hj & H). exists j, v'. split; [lia|exact H].
      * intros (j & v' & Hj & Hv' & Hnz' & Hhi). exists j, v'.
        split; [|auto]. destruct (decide (j = i)) as [->|]; [congruence|lia].
    + destruct (decide (i < IF_SETSIZE)%nat) as [Hi|Hi].
      * destruct (IF_SET_spec i p Hlen Hi) as (p' & Hset & Hlen' & _).
        rewrite Hset, (IH (S i) p') by (congruence || lia). split.
        -- intros (j & v' & Hj & H). exists j, v'. split; [lia|exact H].
        -- intros (j & v' & Hj & Hv' & Hnz' & Hhi). exists j, v'.
           split; [lia|auto].
      * rewrite IF_SET_None by (try exact Hlen; lia). split; [|reflexivity].
        intros _. exists i, v. repeat split; [lia|assumption..|lia].
Qed.

End LoopsMore.

(** ** More on the forwarding-cache operations *)

Section MrouteMore.

Context {P : Platform} (kernel : kernel_t).

Lemma kern_mroute4_short (sd cmd : Z) (route : mroute) (active : Z) (w : world) :
  sd <> -1 ->
  (length (ttl route) < MAXVIFS)%nat ->
  kern_mroute4 kernel sd cmd route active w = None.
Proof.
  intros Hsd Hlen. unfold kern_mroute4.
  destruct (Z.eqb_spec sd (-1)) as [|_]; [contradiction|].
  unfold bind at 1. simpl mfcc_ttls. rewrite (copy_ttls_short route Hlen).
  reflexivity.
Qed.

(** X5: [kern_mroute4] reads [route->ttl] up to the size of the vector
    of the kernel: past its guard it has a defined result exactly when
    the array of the route has at least [MAXVIFS] entries; at the guard
    it does not read the array. *)
Theorem kern_mroute4_undefined_iff
    (sd cmd : Z) (route : mroute) (active e0 : Z) :
  run (kern_mroute4 kernel sd cmd route active) e0 = None
  <-> sd <> -1 /\ (length (ttl route) < MAXVIFS)%nat.
Proof.
  unfold run. split.
  - intros Hnone. destruct (Z.eq_dec sd (-1)) as [->|Hsd].
    + rewrite kern_mroute4_no_socket in Hnone. discriminate.
    + split; [exact Hsd|].
      destruct (le_lt_dec MAXVIFS (length (ttl route))) as [Hlen|Hlen]; [|exact Hlen].
      rewrite kern_mroute4_call in Hnone by assumption.
      destruct (kernel _ _ _ _); discriminate.
  - intros [Hsd Hlen]. apply kern_mroute4_short; assumption.
Qed.

Lemma fill_ifset_None_iff (route : mroute) :
  fill_ifset route IF_ZERO = None
  <-> exists j v, ttl route !! j = Some v /\ v <> 0 /\ (IF_SETSIZE <= j)%nat.
Proof.
  unfold fill_ifset.
  rewrite (ifset_loop_None (ttl route) (length (ttl route)) 0 IF_ZERO)
    by (reflexivity || apply length_replicate).
  split.
  - intros (j & v & _ & H). exists j, v. exact H.
  - intros (j & v & H). exists j, v. split; [lia|exact H].
Qed.

(** X6: [kern_mroute6] sets bit [i] for every entry [i] that is not zero:
    past its guard it has a defined result exactly when no such entry lies
    at a position from [IF_SETSIZE] on. *)
Theorem kern_mroute6_undefined_iff
    (sd cmd : Z) (route : mroute) (e0 : Z) :
  run (kern_mroute6 kernel sd cmd route) e0 = None
  <-> 0 <= sd
      /\ exists j v, ttl route !! j = Some v /\ v <> 0 /\ (IF_SETSIZE <= j)%nat.
Proof.
  unfold run. split.
  - intros Hnone. destruct (Z.lt_ge_cases sd 0) as [Hsd|Hsd].
    + rewrite kern_mroute6_no_socket in Hnone by exact Hsd. discriminate.
    + split; [exact Hsd|]. apply fill_ifset_None_iff.
      destruct (fill_ifset route IF_ZERO) as [ifset|] eqn:Hfill; [|reflexivity].
      rewrite (kern_mroute6_call kernel sd cmd route ifset) in Hnone by assumption.
      destruct (kernel _ _ _ _); discriminate.
  - intros [Hsd Hhigh]. apply fill_ifset_None_iff in Hhigh.
    unfold kern_mroute6. destruct (Z.ltb_spec sd 0) as [|_]; [lia|].
    unfold bind at 1. rewrite Hhigh. reflexivity.
Qed.

(** X7: the interface set that [kern_mroute6] hands to the kernel has
    the [IF_SETSIZE / NIFBITS] words of [struct if_set], and each of them
    is a word of [NIFBITS] bits. *)
Theorem kern_mroute6_ifset_words
    (sd cmd : Z) (route : mroute) (e0 r : Z) (w' : world)
    (sd' : Z) (level : ipproto) (op : sockopt) (mc : mf6cctl) :
  run (kern_mroute6 kernel sd cmd route) e0 = Some (r, w') ->
  In (Setsockopt sd' level op (ArgMf6cctl mc)) (trace w') ->
  length (mf6cc_ifset mc) = (IF_SETSIZE / NIFBITS)%nat
  /\ Forall (fun w => 0 <= w < 2 ^ 32) (mf6cc_ifset mc).
Proof.
  unfold run. intros Hrun Hin. destruct (Z.lt_ge_cases sd 0) as [Hsd|Hsd].
  - rewrite kern_mroute6_no_socket in Hrun by exact Hsd.
    injection Hrun as <- <-. cbn in Hin. destruct Hin as [|[]]; discriminate.
  - destruct (fill_ifset route IF_ZERO) as [ifset|] eqn:Hfill.
    + assert (Hset : Forall word_ok ifset /\ length ifset = length IF_ZERO).
      { apply (ifset_loop_words (ttl route) (length (ttl route)) 0 IF_ZERO);
          [|exact Hfill]. apply Forall_replicate. unfold word_ok, NIFBITS. lia. }
      assert (Hmc : mc = mf6cctl_of route ifset).
      { rewrite (kern_mroute6_call kernel sd cmd route ifset) in Hrun by assumption.
        destruct (kernel _ _ _ _) as [|e]; injection Hrun as <- <-;
          cbn -[Z.eqb] in Hin.
        - destruct Hin as [[= _ _ _ <-]|[]]. reflexivity.
        - destruct Hin as [[= _ _ _ <-]|[Hin|[]]]; [reflexivity|].
          repeat match type of Hin with
                 | context [if ?b then _ else _] => destruct b
                 end; discriminate. }
      subst mc. cbn. destruct Hset as [Hwords Hlen]. split; [exact Hlen|exact Hwords].
    + assert (Hnone : kern_mroute6 kernel sd cmd route {| errno := e0; trace := [] |}
                      = None).
      { unfold kern_mroute6. destruct (Z.ltb_spec sd 0) as [|_]; [lia|].
        unfold bind at 1. rewrite Hfill. reflexivity. }
      congruence.
Qed.

(** X8: IPv6 has no threshold: two routes with the same endpoints whose
    TTL vectors are zero at the same positions are the same route for
    [kern_mroute6]. *)
Theorem kern_mroute6_ignores_ttl_values
    (sd cmd : Z) (r1 r2 : mroute) (w : world) :
  same_endpoints r1 r2 ->
  Forall2 (fun a b => a = 0 <-> b = 0) (ttl r1) (ttl r2) ->
  kern_mroute6 kernel sd cmd r1 w = kern_mroute6 kernel sd cmd r2 w.
Proof.
  intros (Hs & Hg & Hi) Httl.
  assert (Hfill : fill_ifset r1 IF_ZERO = fill_ifset r2 IF_ZERO).
  { unfold fill_ifset. rewrite (Forall2_length _ _ _ Httl).
    apply for_loop_ext. intros j s. unfold array_get.
    destruct (ttl r1 !! j) as [a|] eqn:Ha.
    - destruct (Forall2_lookup_l _ _ _ _ _ Httl Ha) as (b & Hb & Hab). rewrite Hb.
      destruct (Z.eqb_spec a 0) as [Ha0|Ha0], (Z.eqb_spec b 0) as [Hb0|Hb0];
        try reflexivity; tauto.
    - apply lookup_ge_None_1 in Ha. rewrite (Forall2_length _ _ _ Httl) in Ha.
      rewrite lookup_ge_None_2 by exact Ha. reflexivity. }
  unfold kern_mroute6. rewrite Hs, Hg, Hi, Hfill. reflexivity.
Qed.

(** X9: the entries of [route->ttl] from [MAXVIFS] on do not count: two
    routes with the same endpoints whose TTL vectors agree on the first
    [MAXVIFS] entries are the same route for [kern_mroute4]. *)
Theorem kern_mroute4_ignores_excess
    (sd cmd : Z) (r1 r2 : mroute) (active : Z) (w : world) :
  same_endpoints r1 r2 ->
  take MAXVIFS (ttl r1) = take MAXVIFS (ttl r2) ->
  kern_mroute4 kernel sd cmd r1 active w = kern_mroute4 kernel sd cmd r2 active w.
Proof.
  intros (Hs & Hg & Hi) Httl.
  destruct (Z.eq_dec sd (-1)) as [->|Hsd]; [reflexivity|].
  pose proof (f_equal length Httl) as Hlen. rewrite !length_take in Hlen.
  destruct (le_lt_dec MAXVIFS (length (ttl r1))) as [H1|H1].
  - rewrite !kern_mroute4_call by (try assumption; lia).
    unfold mfcctl_of. rewrite Hs, Hg, Hi, Httl. reflexivity.
  - rewrite !kern_mroute4_short by (try assumption; lia). reflexivity.
Qed.

(** Past the guard, one request, with the structure of the route. *)
Lemma kern_mroute4_ttl_shape (sd cmd : Z) (route : mroute) (active e0 : Z) :
  sd <> -1 ->
  (MAXVIFS <= length (ttl route))%nat ->
  exists r w',
    run (kern_mroute4 kernel sd cmd route active) e0 = Some (r, w')
    /\ sockopt_calls (trace w')
       = [Setsockopt sd IPPROTO_IP (mrt_op cmd) (ArgMfcctl (mfcctl_of route))].
Proof.
  intros Hsd Hlen. unfold run. rewrite kern_mroute4_call by assumption.
  destruct (kernel _ _ _ _) as [|e]; do 2 eexists;
    (split; [reflexivity|]); cbn -[Z.eqb]; case_ifs.
Qed.

Lemma kern_mroute6_request (sd cmd : Z) (route : mroute) (ifset : if_set) (e0 : Z) :
  0 <= sd ->
  fill_ifset route IF_ZERO = Some ifset ->
  exists r w',
    run (kern_mroute6 kernel sd cmd route) e0 = Some (r, w')
    /\ sockopt_calls (trace w')
       = [Setsockopt sd IPPROTO_IPV6 (mrt6_op cmd)
            (ArgMf6cctl (mf6cctl_of route ifset))].
Proof.
  intros Hsd Hfill. unfold run.
  rewrite (kern_mroute6_call kernel sd cmd route ifset) by assumption.
  destruct (kernel _ _ _ _) as [|e]; do 2 eexists;
    (split; [reflexivity|]); cbn -[Z.eqb]; case_ifs.
Qed.

(** X4: a removal is the addition with the other option name: for a
    command other than 'a', 0 included, [kern_mroute4] and [kern_mroute6]
    send the descriptor, the level and the whole structure that they
    send for 'a', with [MRT_DEL_MFC] for [MRT_ADD_MFC] and [MRT6_DEL_MFC]
    for [MRT6_ADD_MFC]; the structure has the inbound interface of the
    route as its parent. *)
Theorem mroute_delete_mirrors_add
    (sd cmd : Z) (route : mroute) (active active' e0 e1 : Z) :
  route_fits route ->
  cmd <> chr "a" ->
  (sd <> -1 ->
   exists mc ra wa rd wd,
     run (kern_mroute4 kernel sd (chr "a") route active) e0 = Some (ra, wa)
     /\ run (kern_mroute4 kernel sd cmd route active') e1 = Some (rd, wd)
     /\ sockopt_calls (trace wa) = [Setsockopt sd IPPROTO_IP MRT_ADD_MFC (ArgMfcctl mc)]
     /\ sockopt_calls (trace wd) = [Setsockopt sd IPPROTO_IP MRT_DEL_MFC (ArgMfcctl mc)]
     /\ mfcc_origin mc = inet_addr_get (source route)
     /\ mfcc_mcastgrp mc = inet_addr_get (group route)
     /\ mfcc_parent mc = inbound route)
  /\ (0 <= sd ->
      exists mc ra wa rd wd,
        run (kern_mroute6 kernel sd (chr "a") route) e0 = Some (ra, wa)
        /\ run (kern_mroute6 kernel sd cmd route) e1 = Some (rd, wd)
        /\ sockopt_calls (trace wa)
           = [Setsockopt sd IPPROTO_IPV6 MRT6_ADD_MFC (ArgMf6cctl mc)]
        /\ sockopt_calls (trace wd)
           = [Setsockopt sd IPPROTO_IPV6 MRT6_DEL_MFC (ArgMf6cctl mc)]
        /\ mf6cc_origin mc = inet_addr6_get (source route)
        /\ mf6cc_mcastgrp mc = inet_addr6_get (group route)
        /\ mf6cc_parent mc = inbound route).
Proof.
  intros [Hlo Hhi] Hcmd.
  assert (Hdel4 : mrt_op cmd = MRT_DEL_MFC).
  { unfold mrt_op. destruct (Z.eqb_spec cmd (chr "a")); [contradiction|reflexivity]. }
  assert (Hdel6 : mrt6_op cmd = MRT6_DEL_MFC).
  { unfold mrt6_op. destruct (Z.eqb_spec cmd (chr "a")); [contradiction|reflexivity]. }
  split; intros Hsd.
  - destruct (kern_mroute4_ttl_shape sd (chr "a") route active e0 Hsd Hlo)
      as (ra & wa & Hra & Hca).
    destruct (kern_mroute4_ttl_shape sd cmd route active' e1 Hsd Hlo)
      as (rd & wd & Hrd & Hcd).
    exists (mfcctl_of route), ra, wa, rd, wd. rewrite Hdel4 in Hcd.
    repeat (split; [assumption|]). repeat split.
  - destruct (fill_ifset_bits route Hhi) as (ifset & Hfill & _).
    destruct (kern_mroute6_request sd (chr "a") route ifset e0 Hsd Hfill)
      as (ra & wa & Hra & Hca).
    destruct (kern_mroute6_request sd cmd route ifset e1 Hsd Hfill)
      as (rd & wd & Hrd & Hcd).
    exists (mf6cctl_of route ifset), ra, wa, rd, wd. rewrite Hdel6 in Hcd.
    repeat (split; [assumption|]). repeat split.
Qed.

End MrouteMore.

(** ** Severity and order of the lines *)

Section Lines.

Context {P : Platform} (kernel : kernel_t).

(** X10: [kern_mroute4] never logs above debug severity, not even when
    the kernel refuses the request; [kern_mroute6] and [kern_join_leave]
    log above debug severity only in the runs that return 1. *)
Theorem no_line_above_debug
    (sd cmd : Z) (mcg : mcgroup) (route : mroute) (active e0 r : Z) (w' : world) :
  (run (kern_mroute4 kernel sd cmd route active) e0 = Some (r, w') ->
   debug_only (trace w'))
  /\ (run (kern_mroute6 kernel sd cmd route) e0 = Some (r, w') ->
      r <> 1 -> debug_only (trace w'))
  /\ (run (kern_join_leave kernel sd cmd mcg) e0 = Some (r, w') ->
      r <> 1 -> debug_only (trace w')).
Proof.
  split; [|split].
  - unfold run. intros Hrun. destruct (Z.eq_dec sd (-1)) as [->|Hsd].
    + rewrite kern_mroute4_no_socket in Hrun. injection Hrun as <- <-.
      intros sev fmt args Hin. line_cases Hin.
    + destruct (le_lt_dec MAXVIFS (length (ttl route))) as [Hlen|Hlen].
      * rewrite kern_mroute4_call in Hrun by assumption.
        destruct (kernel _ _ _ _) as [|e]; injection Hrun as <- <-;
          intros sev fmt args Hin; line_cases Hin.
      * rewrite kern_mroute4_short in Hrun by assumption. discriminate.
  - unfold run. intros Hrun Hr. destruct (Z.lt_ge_cases sd 0) as [Hsd|Hsd].
    + rewrite kern_mroute6_no_socket in Hrun by exact Hsd. injection Hrun as <- <-.
      intros sev fmt args Hin. line_cases Hin.
    + destruct (fill_ifset route IF_ZERO) as [ifset|] eqn:Hfill.
      * rewrite (kern_mroute6_call kernel sd cmd route ifset) in Hrun by assumption.
        destruct (kernel _ _ _ _) as [|e]; injection Hrun as <- <-;
          [|contradiction]. intros sev fmt args Hin. line_cases Hin.
      * exfalso. revert Hrun. unfold kern_mroute6.
        destruct (Z.ltb_spec sd 0) as [|_]; [lia|].
        unfold bind at 1. rewrite Hfill. discriminate.
  - intros Hrun Hr.
    destruct (kern_join_leave_shape kernel sd cmd mcg e0)
      as (fmt0 & rest & level & op & arg & Hshape & _).
    cbn zeta in Hshape. rewrite Hshape in Hrun.
    destruct (kernel sd level op arg) as [|e]; injection Hrun as <- <-;
      [|contradiction]. intros sev fmt args Hin.
    destruct Hin as [Hin|[Hin|[]]]; [|discriminate].
    injection Hin as <- _ _. reflexivity.
Qed.

(** X11: when the kernel has accepted the request of an active route,
    [kern_mroute4] returns 0 after these calls, in this order: the
    request, one debug line with Add or Del, origin, group and the
    inbound interface, and last the call to the discovery component. *)
Theorem kern_mroute4_active_success
    (sd cmd : Z) (route : mroute) (active e0 : Z) :
  sd <> -1 ->
  (MAXVIFS <= length (ttl route))%nat ->
  active <> 0 ->
  kernel sd IPPROTO_IP (if cmd =? chr "a" then MRT_ADD_MFC else MRT_DEL_MFC)
    (ArgMfcctl (mfcctl_of route)) = KOk ->
  exists w',
    run (kern_mroute4 kernel sd cmd route active) e0 = Some (0, w')
    /\ trace w'
       = [Setsockopt sd IPPROTO_IP
            (if cmd =? chr "a" then MRT_ADD_MFC else MRT_DEL_MFC)
            (ArgMfcctl (mfcctl_of route));
          Smclog LOG_DEBUG "%s %s -> %s from VIF %d"
            [AStr (if cmd =? chr "a" then "Add" else "Del");
             AStr (inet_addr2str (source route) INET_ADDRSTRLEN);
             AStr (inet_addr2str (group route) INET_ADDRSTRLEN);
             AInt (inbound route)];
          if cmd =? chr "a" then Mrdisc_enable (inbound route)
          else Mrdisc_disable (inbound route)].
Proof.
  intros Hsd Hlen Hact Hk. unfold run.
  rewrite kern_mroute4_call by assumption. unfold mrt_op. rewrite Hk.
  cbn zeta. destruct (Z.eqb_spec active 0) as [|_]; [contradiction|].
  eexists. split; reflexivity.
Qed.

End Lines.

(** ** The operations at work *)

Example kern_join_leave_asm :
  run (kern_join_leave (P := linux cfg_rfc3678) kernel_accepts 5 (chr "j") mcg_asm) 0
  = Some (0, {| errno := 0;
                trace := [Smclog LOG_DEBUG "%s group (%s,%s) on ifindex %d and socket %d ..."
                            [AStr "Join"; AStr "*"; AStr "239.1.1.1"; AInt 2; AInt 5];
                          Setsockopt 5 IPPROTO_IP MCAST_JOIN_GROUP
                            (ArgGroupReq {| gr_interface := 2;
                                            gr_group := addr4 239 1 1 1 |})] |}).
Proof. vm_compute. reflexivity. Qed.

Example kern_mroute4_del_absent :
  run (kern_mroute4 (P := linux cfg_rfc3678) kernel_empty 7 (chr "d") route_0513 1) 0
  = Some (1, {| errno := ENOENT;
                trace := [Setsockopt 7 IPPROTO_IP MRT_DEL_MFC
                            (ArgMfcctl {| mfcc_origin := 167772161;
                                          mfcc_mcastgrp := 4009820417;
                                          mfcc_parent := 0;
                                          mfcc_ttls := [0; 5; 0; 3] ++ replicate 28 0 |});
                          Smclog LOG_DEBUG
                            "failed removing multicast route (%s,%s), does not exist."
                            [AStr "10.0.0.1"; AStr "239.1.1.1"]] |}).
Proof. vm_compute. reflexivity. Qed.

Example kern_mroute6_add :
  run (kern_mroute6 (P := linux cfg_rfc3678) kernel_accepts 8 (chr "a") route_0513) 0
  = Some (0, {| errno := 0;
                trace := [Setsockopt 8 IPPROTO_IPV6 MRT6_ADD_MFC
                            (ArgMf6cctl {| mf6cc_origin := sockaddr6_of (addr4 10 0 0 1);
                                           mf6cc_mcastgrp := sockaddr6_of (addr4 239 1 1 1);
                                           mf6cc_parent := 0;
                                           mf6cc_ifset := [10; 0; 0; 0; 0; 0; 0; 0] |})] |}).
Proof. vm_compute. reflexivity. Qed.


(** At the descriptor -2 [kern_mroute4] calls the kernel, which refuses
    the descriptor, and returns 1. *)
Example kern_mroute4_sd_minus_two :
  run (kern_mroute4 (P := linux cfg_rfc3678) kernel_accepts (-2) (chr "a")
         route_0513 1) 0
  = Some (1, {| errno := EBADF;
                trace := [Setsockopt (-2) IPPROTO_IP MRT_ADD_MFC
                            (ArgMfcctl {| mfcc_origin := 167772161;
                                          mfcc_mcastgrp := 4009820417;
                                          mfcc_parent := 0;
                                          mfcc_ttls := [0; 5; 0; 3] ++ replicate 28 0 |});
                          Smclog LOG_DEBUG "failed %s IPv4 multicast route (%s,%s): %s"
                            [AStr "adding"; AStr "10.0.0.1"; AStr "239.1.1.1";
                             AStr "Bad file descriptor"]] |}).
Proof. vm_compute. reflexivity. Qed.

(** At the same descriptor [kern_mroute6] stops at its guard. *)
Example kern_mroute6_sd_minus_two :
  run (kern_mroute6 (P := linux cfg_rfc3678) kernel_accepts (-2) (chr "a")
         route_0513) 0
  = Some (-1, {| errno := 0;
                 trace := [Smclog LOG_DEBUG "No IPv6 multicast socket" []] |}).
Proof. vm_compute. reflexivity. Qed.

Lemma kern_mroute4_guard_only_minus_one_witness :
  -2 < -1
  /\ (MAXVIFS (Platform := linux cfg_rfc3678) <= length (ttl route_0513))%nat
  /\ exists r w',
       run (kern_mroute4 (P := linux cfg_rfc3678) kernel_accepts (-2) (chr "a")
              route_0513 1) 0 = Some (r, w')
       /\ r <> -1
       /\ sockopt_calls (trace w')
          = [Setsockopt (-2) IPPROTO_IP (mrt_op (chr "a"))
               (ArgMfcctl (mfcctl_of (P := linux cfg_rfc3678) route_0513))].
Proof.
  split; [lia|]. split; [vm_compute; lia|].
  apply (kern_mroute4_guard_only_minus_one (P := linux cfg_rfc3678)
           kernel_accepts (-2) (chr "a") route_0513 1 0); [lia | vm_compute; lia].
Defined.

Lemma kern_mroute4_ttl_vector_witness :
  7 <> -1
  /\ (MAXVIFS (Platform := linux cfg_rfc3678) <= length (ttl route_long))%nat
  /\ exists r w' mc,
       run (kern_mroute4 (P := linux cfg_rfc3678) kernel_accepts 7 (chr "a")
              route_long 1) 0 = Some (r, w')
       /\ sockopt_calls (trace w')
          = [Setsockopt 7 IPPROTO_IP (mrt_op (chr "a")) (ArgMfcctl mc)]
       /\ length (mfcc_ttls mc) = 32%nat
       /\ (forall i, (i < 32)%nat -> mfcc_ttls mc !! i = ttl route_long !! i).
Proof.
  split; [discriminate|]. split; [vm_compute; lia|].
  apply (kern_mroute4_ttl_vector (P := linux cfg_rfc3678)
           kernel_accepts 7 (chr "a") route_long 1 0);
    [discriminate | vm_compute; lia].
Defined.

Lemma kern_mroute6_interface_set_witness :
  0 <= 8
  /\ (length (ttl route_0513) <= IF_SETSIZE)%nat
  /\ exists r w' mc,
       run (kern_mroute6 (P := linux cfg_rfc3678) kernel_accepts 8 (chr "a")
              route_0513) 0 = Some (r, w')
       /\ sockopt_calls (trace w')
          = [Setsockopt 8 IPPROTO_IPV6 (mrt6_op (chr "a")) (ArgMf6cctl mc)]
       /\ (forall i, IF_ISSET i (mf6cc_ifset mc) = true <-> i = 1%nat \/ i = 3%nat).
Proof.
  split; [lia|]. split; [vm_compute; lia|].
  destruct (kern_mroute6_interface_set (P := linux cfg_rfc3678)
              kernel_accepts 8 (chr "a") route_0513 0)
    as (r & w' & mc & Hrun & Hcalls & _ & Hbits); [lia | vm_compute; lia |].
  exists r, w', mc. split; [exact Hrun|]. split; [exact Hcalls|].
  exact (Hbits 28%nat eq_refl).
Defined.

Lemma mroute_failure_diagnostics_witness :
  route_fits (P := linux cfg_rfc3678) route_0513
  /\ (exists r w' call,
        run (kern_mroute4 (P := linux cfg_rfc3678) kernel_empty 7 (chr "d")
               route_0513 1) 0 = Some (r, w')
        /\ answer kernel_empty call = Some (KErr ENOENT)
        /\ r = 1
        /\ trace w'
           = [call;
              Smclog LOG_DEBUG
                "failed removing multicast route (%s,%s), does not exist."
                [AStr "10.0.0.1"; AStr "239.1.1.1"]])
  /\ (exists r w' call,
        run (kern_mroute6 (P := linux cfg_rfc3678) kernel_eperm 8 (chr "a")
               route_0513) 0 = Some (r, w')
        /\ answer kernel_eperm call = Some (KErr EPERM)
        /\ r = 1
        /\ trace w'
           = [call;
              Smclog LOG_WARNING "failed %s IPv6 multicast route (%s,%s): %s"
                [AStr "adding"; AStr "10.0.0.1"; AStr "239.1.1.1";
                 AStr "Operation not permitted"]]).
Proof.
  assert (Hfit : route_fits (P := linux cfg_rfc3678) route_0513)
    by (split; vm_compute; lia).
  split; [exact Hfit|].
  destruct (mroute_failure_diagnostics (P := linux cfg_rfc3678)
              kernel_empty 7 (chr "d") route_0513 1 0 Hfit) as [H4 _].
  destruct (mroute_failure_diagnostics (P := linux cfg_rfc3678)
              kernel_eperm 8 (chr "a") route_0513 1 0 Hfit) as [_ H6].
  split.
  - destruct H4 as (r & w' & call & Hrun & _ & Hhd & Hfail); [discriminate|].
    exists r, w', call. split; [exact Hrun|].
    vm_compute in Hrun. injection Hrun as <- <-.
    vm_compute in Hhd. injection Hhd as <-.
    split; [reflexivity|]. exact (Hfail ENOENT eq_refl).
  - destruct H6 as (r & w' & call & Hrun & _ & Hhd & Hfail); [lia|].
    exists r, w', call. split; [exact Hrun|].
    vm_compute in Hrun. injection Hrun as <- <-.
    vm_compute in Hhd. injection Hhd as <-.
    split; [reflexivity|]. exact (Hfail EPERM eq_refl).
Defined.

Lemma enoent_branch_by_errno_alone_witness :
  route_fits (P := linux cfg_rfc3678) route_0513
  /\ (exists w' mc,
        run (kern_mroute4 (P := linux cfg_rfc3678) kernel_enoent 7 (chr "a")
               route_0513 1) 0 = Some (1, w')
        /\ trace w'
           = [Setsockopt 7 IPPROTO_IP MRT_ADD_MFC (ArgMfcctl mc);
              Smclog LOG_DEBUG
                "failed removing multicast route (%s,%s), does not exist."
                [AStr "10.0.0.1"; AStr "239.1.1.1"]])
  /\ (exists w' mc,
        run (kern_mroute4 (P := linux cfg_rfc3678) kernel_eperm 7 (chr "a")
               route_0513 1) 0 = Some (1, w')
        /\ trace w'
           = [Setsockopt 7 IPPROTO_IP MRT_ADD_MFC (ArgMfcctl mc);
              Smclog LOG_DEBUG "failed %s IPv4 multicast route (%s,%s): %s"
                [AStr "adding"; AStr "10.0.0.1"; AStr "239.1.1.1";
                 AStr "Operation not permitted"]])
  /\ (exists w' mc,
        run (kern_mroute6 (P := linux cfg_rfc3678) kernel_enoent 8 (chr "a")
               route_0513) 0 = Some (1, w')
        /\ trace w'
           = [Setsockopt 8 IPPROTO_IPV6 MRT6_ADD_MFC (ArgMf6cctl mc);
              Smclog LOG_DEBUG
                "failed removing IPv6 multicast route (%s,%s), does not exist."
                [AStr "10.0.0.1"; AStr "239.1.1.1"]]).
Proof.
  assert (Hfit : route_fits (P := linux cfg_rfc3678) route_0513)
    by (split; vm_compute; lia).
  split; [exact Hfit|].
  destruct (enoent_branch_by_errno_alone (P := linux cfg_rfc3678)
              kernel_enoent 7 (chr "a") route_0513 1 0 Hfit) as [Ha _].
  destruct (enoent_branch_by_errno_alone (P := linux cfg_rfc3678)
              kernel_eperm 7 (chr "a") route_0513 1 0 Hfit) as [Hp _].
  destruct (enoent_branch_by_errno_alone (P := linux cfg_rfc3678)
              kernel_enoent 8 (chr "a") route_0513 1 0 Hfit) as [_ H6].
  split; [|split].
  - destruct Ha as (r & w' & mc & Hrun & _ & Hfail); [discriminate|].
    destruct (Hfail ENOENT eq_refl) as (-> & line & Ht & Hline & _).
    rewrite (Hline eq_refl) in Ht. exists w', mc. split; [exact Hrun|exact Ht].
  - destruct Hp as (r & w' & mc & Hrun & _ & Hfail); [discriminate|].
    destruct (Hfail EPERM eq_refl) as (-> & line & Ht & _ & Hline).
    rewrite (Hline ltac:(discriminate)) in Ht.
    exists w', mc. split; [exact Hrun|exact Ht].
  - destruct H6 as (r & w' & mc & Hrun & _ & Hfail); [lia|].
    destruct (Hfail ENOENT eq_refl) as (-> & line & Ht & Hline & _).
    rewrite (Hline eq_refl) in Ht. exists w', mc. split; [exact Hrun|exact Ht].
Defined.

Lemma mrdisc_only_for_active_routes_witness :
  route_fits (P := linux cfg_rfc3678) route_0513
  /\ (exists w',
        run (kern_mroute4 (P := linux cfg_rfc3678) kernel_accepts 7 (chr "a")
               route_0513 1) 0 = Some (0, w')
        /\ mrdisc_calls (trace w') = [Mrdisc_enable 0])
  /\ (exists r w',
        run (kern_mroute6 (P := linux cfg_rfc3678) kernel_accepts 7 (chr "a")
               route_0513) 0 = Some (r, w')
        /\ mrdisc_calls (trace w') = []).
Proof.
  assert (Hfit : route_fits (P := linux cfg_rfc3678) route_0513)
    by (split; vm_compute; lia).
  split; [exact Hfit|].
  destruct (mrdisc_only_for_active_routes (P := linux cfg_rfc3678)
              kernel_accepts 7 (chr "a") route_0513 1 0 Hfit)
    as [(r & w' & Hrun & Hr & Hcalls) H6].
  split; [|exact H6].
  assert (Hr0 : r = 0) by (apply Hr; split; [discriminate|reflexivity]).
  subst r. exists w'. split; [exact Hrun|exact Hcalls].
Defined.

Lemma return_values_witness :
  route_fits (P := linux cfg_rfc3678) route_0513
  /\ (exists r w',
        run (kern_join_leave (P := linux cfg_rfc3678) kernel_empty 5 (chr "l")
               mcg_ssm) 0 = Some (r, w')
        /\ tri_state kernel_empty r (trace w')
        /\ (r = 0 \/ r = 1))
  /\ (exists r w',
        run (kern_mroute4 (P := linux cfg_rfc3678) kernel_empty 5 (chr "l")
               route_0513 1) 0 = Some (r, w')
        /\ tri_state kernel_empty r (trace w')
        /\ (r = -1 <-> 5 = -1))
  /\ (exists r w',
        run (kern_mroute6 (P := linux cfg_rfc3678) kernel_empty 5 (chr "l")
               route_0513) 0 = Some (r, w')
        /\ tri_state kernel_empty r (trace w')
        /\ (r = -1 <-> 5 < 0)).
Proof.
  assert (Hfit : route_fits (P := linux cfg_rfc3678) route_0513)
    by (split; vm_compute; lia).
  split; [exact Hfit|].
  exact (return_values (P := linux cfg_rfc3678) kernel_empty 5 (chr "l")
           mcg_ssm route_0513 1 0 Hfit).
Defined.

(** A route with interface 256 set is past the interface set. *)
Example kern_mroute6_interface_256 :
  run (kern_mroute6 (P := linux cfg_rfc3678) kernel_accepts 8 (chr "a") route_257) 0
  = None.
Proof. vm_compute. reflexivity. Qed.

(** With [struct ip_mreq] only, the request has the address of [eth0]. *)
Example kern_join_leave_ip_mreq :
  run (kern_join_leave (P := linux cfg_ip_mreq) kernel_accepts 5 (chr "j") mcg_asm) 0
  = Some (0, {| errno := 0;
                trace := [Smclog LOG_DEBUG legacy_fmt
                            [AStr "Join"; AStr "239.1.1.1"; AInt 2];
                          Setsockopt 5 IPPROTO_IP IP_ADD_MEMBERSHIP
                            (ArgIpMreq {| imr_multiaddr := 4009820417;
                                          imr_interface := 3232235777 |})] |}).
Proof. vm_compute. reflexivity. Qed.

Lemma leave_mirrors_join_witness :
  chr "l" <> 0
  /\ chr "l" <> chr "j"
  /\ exists level opj arg rj wj rl wl,
       run (kern_join_leave (P := linux cfg_legacy) kernel_accepts 5 (chr "j")
              mcg_asm) 0 = Some (rj, wj)
       /\ run (kern_join_leave (P := linux cfg_legacy) kernel_accepts 5 (chr "l")
                 mcg_asm) 0 = Some (rl, wl)
       /\ sockopt_calls (trace wj) = [Setsockopt 5 level opj arg]
       /\ sockopt_calls (trace wl) = [Setsockopt 5 level (leave_of opj) arg]
       /\ is_join_op opj = true
       /\ is_leave_op (leave_of opj) = true
       /\ fully_written arg = false.
Proof.
  split; [discriminate|]. split; [discriminate|].
  apply (leave_mirrors_join (P := linux cfg_legacy) kernel_accepts 5 (chr "l")
           mcg_asm 0 0); discriminate.
Defined.

Lemma mroute_delete_mirrors_add_witness :
  route_fits (P := linux cfg_rfc3678) route_0513
  /\ chr "d" <> chr "a"
  /\ (exists mc ra wa rd wd,
        run (kern_mroute4 (P := linux cfg_rfc3678) kernel_accepts 7 (chr "a")
               route_0513 1) 0 = Some (ra, wa)
        /\ run (kern_mroute4 (P := linux cfg_rfc3678) kernel_accepts 7 (chr "d")
                  route_0513 1) 0 = Some (rd, wd)
        /\ sockopt_calls (trace wa)
           = [Setsockopt 7 IPPROTO_IP MRT_ADD_MFC (ArgMfcctl mc)]
        /\ sockopt_calls (trace wd)
           = [Setsockopt 7 IPPROTO_IP MRT_DEL_MFC (ArgMfcctl mc)]
        /\ mfcc_origin mc = 167772161
        /\ mfcc_mcastgrp mc = 4009820417
        /\ mfcc_parent mc = 0).
Proof.
  assert (Hfit : route_fits (P := linux cfg_rfc3678) route_0513)
    by (split; vm_compute; lia).
  split; [exact Hfit|]. split; [discriminate|].
  destruct (mroute_delete_mirrors_add (P := linux cfg_rfc3678) kernel_accepts
              7 (chr "d") route_0513 1 1 0 0 Hfit) as [H4 _]; [discriminate|].
  apply H4. discriminate.
Defined.

Lemma kern_mroute6_ifset_words_witness :
  exists w' mc,
    run (kern_mroute6 (P := linux cfg_rfc3678) kernel_accepts 8 (chr "a")
           route_0513) 0 = Some (0, w')
    /\ In (Setsockopt 8 IPPROTO_IPV6 MRT6_ADD_MFC (ArgMf6cctl mc)) (trace w')
    /\ length (mf6cc_ifset mc) = (IF_SETSIZE / NIFBITS)%nat
    /\ Forall (fun w => 0 <= w < 2 ^ 32) (mf6cc_ifset mc).
Proof.
  do 2 eexists.
  assert (Hrun : run (kern_mroute6 (P := linux cfg_rfc3678) kernel_accepts 8
                        (chr "a") route_0513) 0
                 = Some (0, {| errno := 0;
                               trace := [Setsockopt 8 IPPROTO_IPV6 MRT6_ADD_MFC
                                           (ArgMf6cctl
                                              {| mf6cc_origin := sockaddr6_of (addr4 10 0 0 1);
                                                 mf6cc_mcastgrp := sockaddr6_of (addr4 239 1 1 1);
                                                 mf6cc_parent := 0;
                                                 mf6cc_ifset :=
                                                   [10; 0; 0; 0; 0; 0; 0; 0] |})] |}))
    by (vm_compute; reflexivity).
  split; [exact Hrun|].
  assert (Hin : In (Setsockopt 8 IPPROTO_IPV6 MRT6_ADD_MFC
                      (ArgMf6cctl {| mf6cc_origin := sockaddr6_of (addr4 10 0 0 1);
                                     mf6cc_mcastgrp := sockaddr6_of (addr4 239 1 1 1);
                                     mf6cc_parent := 0;
                                     mf6cc_ifset := [10; 0; 0; 0; 0; 0; 0; 0] |}))
                   [Setsockopt 8 IPPROTO_IPV6 MRT6_ADD_MFC
                      (ArgMf6cctl {| mf6cc_origin := sockaddr6_of (addr4 10 0 0 1);
                                     mf6cc_mcastgrp := sockaddr6_of (addr4 239 1 1 1);
                                     mf6cc_parent := 0;
                                     mf6cc_ifset := [10; 0; 0; 0; 0; 0; 0; 0] |})])
    by (left; reflexivity).
  split; [exact Hin|].
  exact (kern_mroute6_ifset_words (P := linux cfg_rfc3678) kernel_accepts 8 (chr "a")
           route_0513 0 0 _ 8 IPPROTO_IPV6 MRT6_ADD_MFC _ Hrun Hin).
Defined.

Lemma kern_mroute6_ignores_ttl_values_witness :
  same_endpoints route_0513 route_0901
  /\ Forall2 (fun a b => a = 0 <-> b = 0) (ttl route_0513) (ttl route_0901)
  /\ run (kern_mroute6 (P := linux cfg_rfc3678) kernel_accepts 8 (chr "a")
            route_0513) 0
     = run (kern_mroute6 (P := linux cfg_rfc3678) kernel_accepts 8 (chr "a")
              route_0901) 0.
Proof.
  assert (Hends : same_endpoints route_0513 route_0901)
    by (repeat split; reflexivity).
  assert (Hzero : Forall2 (fun a b => a = 0 <-> b = 0)
                    (ttl route_0513) (ttl route_0901))
    by (vm_compute; repeat (constructor; [lia|]); constructor).
  split; [exact Hends|]. split; [exact Hzero|].
  exact (kern_mroute6_ignores_ttl_values (P := linux cfg_rfc3678) kernel_accepts
           8 (chr "a") route_0513 route_0901 _ Hends Hzero).
Defined.

Lemma kern_mroute4_ignores_excess_witness :
  same_endpoints route_long route_long_cut
  /\ take (MAXVIFS (Platform := linux cfg_rfc3678)) (ttl route_long)
     = take (MAXVIFS (Platform := linux cfg_rfc3678)) (ttl route_long_cut)
  /\ run (kern_mroute4 (P := linux cfg_rfc3678) kernel_accepts 7 (chr "a")
            route_long 1) 0
     = run (kern_mroute4 (P := linux cfg_rfc3678) kernel_accepts 7 (chr "a")
              route_long_cut 1) 0.
Proof.
  assert (Hends : same_endpoints route_long route_long_cut)
    by (repeat split; reflexivity).
  assert (Htake : take (MAXVIFS (Platform := linux cfg_rfc3678)) (ttl route_long)
                  = take (MAXVIFS (Platform := linux cfg_rfc3678)) (ttl route_long_cut))
    by (vm_compute; reflexivity).
  split; [exact Hends|]. split; [exact Htake|].
  exact (kern_mroute4_ignores_excess (P := linux cfg_rfc3678) kernel_accepts
           7 (chr "a") route_long route_long_cut 1 _ Hends Htake).
Defined.

Lemma no_line_above_debug_witness :
  exists w4 w6 wj,
    run (kern_mroute4 (P := linux cfg_rfc3678) kernel_eperm 7 (chr "a")
           route_0513 1) 0 = Some (1, w4)
    /\ debug_only (trace w4)
    /\ run (kern_mroute6 (P := linux cfg_rfc3678) kernel_accepts 8 (chr "a")
              route_0513) 0 = Some (0, w6)
    /\ debug_only (trace w6)
    /\ run (kern_join_leave (P := linux cfg_rfc3678) kernel_accepts 5 (chr "j")
              mcg_asm) 0 = Some (0, wj)
    /\ debug_only (trace wj).
Proof.
  do 3 eexists.
  assert (H4 : run (kern_mroute4 (P := linux cfg_rfc3678) kernel_eperm 7 (chr "a")
                      route_0513 1) 0 = Some (1, _)) by (vm_compute; reflexivity).
  assert (H6 : run (kern_mroute6 (P := linux cfg_rfc3678) kernel_accepts 8 (chr "a")
                      route_0513) 0 = Some (0, _)) by (vm_compute; reflexivity).
  assert (Hj : run (kern_join_leave (P := linux cfg_rfc3678) kernel_accepts 5
                      (chr "j") mcg_asm) 0 = Some (0, _)) by (vm_compute; reflexivity).
  split; [exact H4|]. split.
  { exact (proj1 (no_line_above_debug (P := linux cfg_rfc3678) kernel_eperm
                    7 (chr "a") mcg_asm route_0513 1 0 1 _) H4). }
  split; [exact H6|]. split.
  { refine (proj1 (proj2 (no_line_above_debug (P := linux cfg_rfc3678) kernel_accepts
                            8 (chr "a") mcg_asm route_0513 1 0 0 _)) H6 _).
    discriminate. }
  split; [exact Hj|].
  refine (proj2 (proj2 (no_line_above_debug (P := linux cfg_rfc3678) kernel_accepts
                          5 (chr "j") mcg_asm route_0513 1 0 0 _)) Hj _).
  discriminate.
Defined.

Lemma kern_mroute4_active_success_witness :
  7 <> -1
  /\ (MAXVIFS (Platform := linux cfg_rfc3678) <= length (ttl route_0513))%nat
  /\ 1 <> 0
  /\ kernel_accepts 7 IPPROTO_IP MRT_DEL_MFC
       (ArgMfcctl (mfcctl_of (P := linux cfg_rfc3678) route_0513)) = KOk
  /\ exists w',
       run (kern_mroute4 (P := linux cfg_rfc3678) kernel_accepts 7 (chr "d")
              route_0513 1) 0 = Some (0, w')
       /\ trace w'
          = [Setsockopt 7 IPPROTO_IP MRT_DEL_MFC
               (ArgMfcctl (mfcctl_of (P := linux cfg_rfc3678) route_0513));
             Smclog LOG_DEBUG "%s %s -> %s from VIF %d"
               [AStr "Del"; AStr "10.0.0.1"; AStr "239.1.1.1"; AInt 0];
             Mrdisc_disable 0].
Proof.
  split; [discriminate|]. split; [vm_compute; lia|]. split; [discriminate|].
  split; [reflexivity|].
  exact (kern_mroute4_active_success (P := linux cfg_rfc3678) kernel_accepts
           7 (chr "d") route_0513 1 0 ltac:(discriminate) ltac:(vm_compute; lia)
           ltac:(discriminate) eq_refl).
Defined.

(** An interface index of -1 is sent as 4294967295 in [gr_interface],
    and logged as -1. *)
Example kern_join_leave_index_minus_one :
  run (kern_join_leave (P := linux cfg_rfc3678) kernel_accepts 5 (chr "j")
         {| mcg_iface := {| ifindex := -1; inaddr := 0 |};
            mcg_source := addr4 0 0 0 0;
            mcg_group := addr4 239 1 1 1;
            mcg_len := 0 |}) 0
  = Some (0, {| errno := 0;
                trace := [Smclog LOG_DEBUG "%s group (%s,%s) on ifindex %d and socket %d ..."
                            [AStr "Join"; AStr "*"; AStr "239.1.1.1"; AInt (-1); AInt 5];
                          Setsockopt 5 IPPROTO_IP MCAST_JOIN_GROUP
                            (ArgGroupReq {| gr_interface := 4294967295;
                                            gr_group := addr4 239 1 1 1 |})] |}).
Proof. vm_compute. reflexivity. Qed.
